(** * CareerGPT backend: request handlers of backend/main.py and the
      generation client of backend/gemini_engine.py

    The handlers are embedded as computations in a state-and-exception
    monad over the process state (the persistence handle [State.supabase]
    and the cached generation client [_client]).  Python values are the
    values [json.loads] can produce. *)

From Stdlib Require Import ZArith String Ascii List DecimalString Lia.
From stdpp Require Import base option list gmap strings fin_maps fin_sets.

#[local] Set Warnings "-register-all".
#[local] Open Scope string_scope.

(** ** The Python runtime

    What the interpreter itself contributes and the sources rely on:
    floating-point numbers and their conversions, [repr] of a string,
    [int] of a string, and the text of the exceptions the interpreter
    raises.  The handlers are written against this interface. *)

Class PyRuntime := {
  float : Type;
  (** [str(x)] of a float *)
  float_str : float -> string;
  (** [int(x)] of a float; [None] for nan and the infinities *)
  float_int : float -> option Z;
  (** [repr(s)] of a string *)
  str_repr : string -> string;
  (** [int(s)] of a string; [None] when [s] is no integer literal *)
  str_int : string -> option Z;
  (** [str(e)] of an exception raised by the interpreter, given the
      operation and the type name of the offending operand *)
  interp_text : string -> string -> string
}.

Definition dq : string := String (ascii_of_nat 34) EmptyString.
Definition LF : string := String (ascii_of_nat 10) EmptyString.

Definition string_of_Z (n : Z) : string := NilZero.string_of_int (Z.to_int n).
Definition string_of_N (n : N) : string := string_of_Z (Z.of_N n).

(** [needle in haystack] on strings *)
Fixpoint str_contains (needle haystack : string) : bool :=
  String.prefix needle haystack
  || match haystack with
     | EmptyString => false
     | String _ rest => str_contains needle rest
     end.

Section Values.
Context `{PyRuntime}.

(** A Python object as [json.loads] builds it.  A dict keeps its items in
    insertion order; a key occurs once in a dict the interpreter built,
    and lookups take the first binding. *)
Inductive value : Type :=
| VNone
| VBool (b : bool)
| VInt (n : Z)
| VFloat (x : float)
| VStr (s : string)
| VList (l : list value)
| VDict (d : list (string * value)).

Inductive exn : Type :=
| HTTPException (status_code : Z) (detail : value)
| PyError (cls : string) (msg : string).

(** The reason phrase of a status, for the statuses the handlers use. *)
Definition status_phrase (status_code : Z) : string :=
  if (status_code =? 401)%Z then "Unauthorized"
  else if (status_code =? 429)%Z then "Too Many Requests"
  else if (status_code =? 500)%Z then "Internal Server Error"
  else if (status_code =? 503)%Z then "Service Unavailable"
  else EmptyString.

(** [HTTPException(status_code=.., detail=..)]: the constructor of the
    framework puts the reason phrase of the status in the place of a
    detail that is [None]. *)
Definition new_HTTPException (status_code : Z) (detail : value) : exn :=
  match detail with
  | VNone => HTTPException status_code (VStr (status_phrase status_code))
  | _ => HTTPException status_code detail
  end.

Inductive result (A : Type) : Type :=
| Return (a : A)
| Raise (e : exn).
#[global] Arguments Return {A} a.
#[global] Arguments Raise {A} e.

#[global] Instance result_ret : MRet result := fun A a => Return a.
#[global] Instance result_bind : MBind result := fun A B f m =>
  match m with
  | Return a => f a
  | Raise e => Raise e
  end.
#[global] Instance result_fmap : FMap result := fun A B f m =>
  match m with
  | Return a => Return (f a)
  | Raise e => Raise e
  end.

Fixpoint mapM_result {A B} (f : A -> result B) (l : list A) : result (list B) :=
  match l with
  | [] => Return []
  | x :: l' => y ← f x; ys ← mapM_result f l'; Return (y :: ys)
  end.

Definition type_name (v : value) : string :=
  match v with
  | VNone => "NoneType"
  | VBool _ => "bool"
  | VInt _ => "int"
  | VFloat _ => "float"
  | VStr _ => "str"
  | VList _ => "list"
  | VDict _ => "dict"
  end.

Definition interp_error (cls op : string) (v : value) : exn :=
  PyError cls (interp_text op (type_name v)).

(** [repr(v)] and [str(v)] *)
Fixpoint py_repr (v : value) : string :=
  match v with
  | VNone => "None"
  | VBool b => if b then "True" else "False"
  | VInt n => string_of_Z n
  | VFloat x => float_str x
  | VStr s => str_repr s
  | VList l => "[" +:+ String.concat ", " (map py_repr l) +:+ "]"
  | VDict d =>
      "{" +:+ String.concat ", "
                (map (fun kv => match kv with
                                | (k, x) => str_repr k +:+ ": " +:+ py_repr x
                                end) d) +:+ "}"
  end.

Definition py_str (v : value) : string :=
  match v with
  | VStr s => s
  | _ => py_repr v
  end.

(** [int(v)] *)
Definition py_int (v : value) : result Z :=
  match v with
  | VInt n => Return n
  | VBool b => Return (if b then 1 else 0)%Z
  | VFloat x =>
      match float_int x with
      | Some n => Return n
      | None => Raise (interp_error "ValueError" "int" v)
      end
  | VStr s =>
      match str_int s with
      | Some n => Return n
      | None => Raise (interp_error "ValueError" "int" v)
      end
  | _ => Raise (interp_error "TypeError" "int" v)
  end.

Fixpoint dict_get (d : list (string * value)) (k : string) : option value :=
  match d with
  | [] => None
  | (k', x) :: d' => if String.eqb k' k then Some x else dict_get d' k
  end.

(** [d[k] = x]: the binding is replaced in place, or appended *)
Fixpoint dict_set (d : list (string * value)) (k : string) (x : value)
  : list (string * value) :=
  match d with
  | [] => [(k, x)]
  | (k', x') :: d' =>
      if String.eqb k' k then (k', x) :: d' else (k', x') :: dict_set d' k x
  end.

Definition is_str (s : string) (v : value) : bool :=
  match v with
  | VStr s' => String.eqb s' s
  | _ => false
  end.

(** [k in v] for a string [k] *)
Definition py_contains (k : string) (v : value) : result bool :=
  match v with
  | VDict d => Return (bool_decide (is_Some (dict_get d k)))
  | VList l => Return (existsb (is_str k) l)
  | VStr s => Return (str_contains k s)
  | _ => Raise (interp_error "TypeError" "in" v)
  end.

(** [v[k]] for a string [k] *)
Definition py_getitem (v : value) (k : string) : result value :=
  match v with
  | VDict d =>
      match dict_get d k with
      | Some x => Return x
      | None => Raise (PyError "KeyError" (str_repr k))
      end
  | _ => Raise (interp_error "TypeError" "getitem" v)
  end.

(** [v.get(k, default)] *)
Definition py_get (v : value) (k : string) (dflt : value) : result value :=
  match v with
  | VDict d => Return (default dflt (dict_get d k))
  | _ => Raise (interp_error "AttributeError" "get" v)
  end.

(** [v.items()] *)
Definition py_items (v : value) : result (list (string * value)) :=
  match v with
  | VDict d => Return d
  | _ => Raise (interp_error "AttributeError" "items" v)
  end.

Fixpoint chars (s : string) : list value :=
  match s with
  | EmptyString => []
  | String c rest => VStr (String c EmptyString) :: chars rest
  end.

(** the elements [for x in v] runs over *)
Definition py_iter (v : value) : result (list value) :=
  match v with
  | VList l => Return l
  | VDict d => Return (map (fun kv => VStr kv.1) d)
  | VStr s => Return (chars s)
  | _ => Raise (interp_error "TypeError" "iter" v)
  end.

(** [str(e)] *)
Definition str_exn (e : exn) : string :=
  match e with
  | HTTPException status_code detail =>
      string_of_Z status_code +:+ ": " +:+ py_str detail
  | PyError _ msg => msg
  end.

End Values.

(** ** The persistence store *)

Module Store.

(** The conflict key of [roadmap_progress]:
    (user_id, analysis_id, day_label, duration_type). *)
Abbreviation progress_key := (string * string * string * string)%type.

Section Store.
Context `{PyRuntime}.

(** The persistence service behind [State.supabase] (the client library
    and the hosted database) is not in the repository.  Section 4.3 of the
    specification gives its operation shapes: insert one analysis row
    returning the generated id; upsert of progress rows keyed by (user,
    analysis, day label, duration) with conflict policy overwrite, in bulk
    or for one row; select filtered by equality on columns; delete
    filtered by equality on columns.  The tables and operations below
    follow it.  They are the service at work: an outage of the service is
    not part of the model. *)

(** The columns [analyze] supplies for a row of [analyses]. *)
Record analysis_fields := {
  user_id : string;
  target_role : string;
  eligible_roles : value;
  readiness_score : Z;
  skills : value;
  required_skills : value;
  missing_skills : value;
  salary_tiers : value;
  preparation_plans : value
}.

Record analysis_row := { id : string; fields : analysis_fields }.

Definition key_user_id (k : progress_key) : string := k.1.1.1.
Definition key_analysis_id (k : progress_key) : string := k.1.1.2.
Definition key_day_label (k : progress_key) : string := k.1.2.
Definition key_duration_type (k : progress_key) : string := k.2.

Record progress_row := {
  is_completed : bool;
  skill_score : Z;
  updated_at : option N
}.

Inductive timestamp_expr := now_call.

(** One element of an upsert: the key columns and the value columns
    written; [new_updated_at] is absent when the column is not supplied. *)
Record progress_payload := {
  key : progress_key;
  new_is_completed : bool;
  new_skill_score : Z;
  new_updated_at : option timestamp_expr
}.

(** Modelled from the spec: the two relation sets and the source of
    generated ids.  [analyses] is kept newest first, the order
    [created_at] descending asks for; [roadmap_progress] holds one row per
    conflict key. *)
Record t := {
  analyses : list analysis_row;
  roadmap_progress : gmap progress_key progress_row;
  next_id : N
}.

Definition empty : t :=
  {| analyses := []; roadmap_progress := ∅; next_id := 1%N |}.

(** Modelled from the spec: insert one analysis row, returning it with
    the generated id. *)
Definition insert (f : analysis_fields) (s : t) : list analysis_row * t :=
  let row := {| id := string_of_N (next_id s); fields := f |} in
  ([row],
   {| analyses := row :: analyses s;
      roadmap_progress := roadmap_progress s;
      next_id := N.succ (next_id s) |}).

(** Modelled from the spec: upsert of one progress row under its conflict
    key, policy overwrite.  A column the write does not supply keeps its
    stored value, and the text [now()] written to [updated_at] is read as
    the time of the write. *)
Definition upsert_row (now : N) (tbl : gmap progress_key progress_row)
    (p : progress_payload) : gmap progress_key progress_row :=
  <[ key p :=
       {| is_completed := new_is_completed p;
          skill_score := new_skill_score p;
          updated_at :=
            match new_updated_at p with
            | Some now_call => Some now
            | None => tbl !! key p ≫= updated_at
            end |} ]> tbl.

(** Modelled from the spec: the rows of a bulk upsert written to the
    table, each under its conflict key. *)
Definition upsert_rows (now : N) (ps : list progress_payload)
    (tbl : gmap progress_key progress_row) : gmap progress_key progress_row :=
  foldl (upsert_row now) tbl ps.

(** Modelled from the spec: [upsert(rows, on_conflict=...)], one
    statement, returning the rows as they stand after the write.  The
    specification gives the policy for a conflict with a stored row
    (overwrite) and is silent on a statement that itself proposes two rows
    for one key.  The database refuses such a statement as a whole (an
    insert with ON CONFLICT DO UPDATE cannot affect a row a second time),
    and so does the model: [None], and nothing is written. *)
Definition upsert (now : N) (ps : list progress_payload) (s : t)
  : option (list (progress_key * progress_row) * t) :=
  if decide (NoDup (key <$> ps)) then
    let tbl := upsert_rows now ps (roadmap_progress s) in
    Some (omap (fun p => pair (key p) <$> tbl !! key p) ps,
          {| analyses := analyses s; roadmap_progress := tbl;
             next_id := next_id s |})
  else None.

(** Modelled from the spec: the filtered select
    [select("*").eq("analysis_id", a).eq("user_id", u)]. *)
Definition select_progress (a u : string) (s : t)
  : list (progress_key * progress_row) :=
  filter (fun kr => key_analysis_id kr.1 = a ∧ key_user_id kr.1 = u)
         (map_to_list (roadmap_progress s)).

(** Modelled from the spec: the filtered select
    [select("*").eq("user_id", u).order("created_at", desc=True)]. *)
Definition select_analyses (u : string) (s : t) : list analysis_row :=
  filter (fun r => user_id (fields r) = u) (analyses s).

(** Modelled from the spec: the filtered delete
    [delete().eq("id", i).eq("user_id", u)]. *)
Definition delete (i u : string) (s : t) : t :=
  {| analyses :=
       filter (fun r => ¬ (id r = i ∧ user_id (fields r) = u)) (analyses s);
     roadmap_progress := roadmap_progress s;
     next_id := next_id s |}.

End Store.
End Store.

(** ** Process state and environment *)

Record Client := { api_key : string }.

Inductive GenConfig :=
| NoConfig
  (** [{"temperature": 0.2, "response_mime_type": "application/json"}] *)
| JsonMode
  (** [{'system_instruction': text}] *)
| SystemInstruction (text : string).

Record GenRequest := {
  model : string;
  contents : string;
  config : GenConfig
}.

(** What one call of [client.models.generate_content] does: it returns a
    response whose [text] may be absent, or raises. *)
Inductive GenOutcome :=
| Responded (text : option string)
| Failed (cls msg : string).

Section Backend.
Context `{PyRuntime}.

(** The module-level state: [State.supabase] of main.py and [_client] of
    gemini_engine.py.  [sent] records the requests handed to the provider,
    oldest first. *)
Record World := {
  supabase : option Store.t;
  _client : option Client;
  sent : list GenRequest
}.

(** What surrounds the process: the environment variable, the provider
    (its answer may depend on how many calls came before), [json.loads]
    (a value, or the class and text of the exception), and the time the
    database reads during the request. *)
Record Env := {
  GEMINI_API_KEY : option string;
  generate_content : nat -> GenRequest -> GenOutcome;
  json_loads : option string -> value + string * string;
  now : N
}.

Definition M (A : Type) : Type := World -> result A * World.

#[global] Instance M_ret : MRet M := fun A a w => (Return a, w).
#[global] Instance M_bind : MBind M := fun A B f m w =>
  match m w with
  | (Return a, w') => f a w'
  | (Raise e, w') => (Raise e, w')
  end.

Definition raise {A} (e : exn) : M A := fun w => (Raise e, w).
Definition lift {A} (r : result A) : M A := fun w => (r, w).
Definition get_world : M World := fun w => (Return w, w).

(** [try: body except Exception as e: handler e]; what [body] did to the
    state before raising stays done. *)
Definition try_except {A} (body : M A) (handler : exn -> M A) : M A :=
  fun w =>
    match body w with
    | (Return a, w') => (Return a, w')
    | (Raise e, w') => handler e w'
    end.

Definition set_supabase (s : Store.t) (w : World) : World :=
  {| supabase := Some s; _client := _client w; sent := sent w |}.
Definition set_client (c : Client) (w : World) : World :=
  {| supabase := supabase w; _client := Some c; sent := sent w |}.
Definition log_request (r : GenRequest) (w : World) : World :=
  {| supabase := supabase w; _client := _client w; sent := sent w ++ [r] |}.

(** Any method call on [State.supabase] while it is [None]. *)
Definition supabase_is_None : exn :=
  PyError "AttributeError" "'NoneType' object has no attribute 'table'".

Definition with_supabase {A} (f : Store.t -> A * Store.t) : M A :=
  fun w =>
    match supabase w with
    | Some s => let '(a, s') := f s in (Return a, set_supabase s' w)
    | None => (Raise supabase_is_None, w)
    end.

(** What the client raises when the database refuses a statement. *)
Definition statement_refused : exn :=
  PyError "APIError"
    "ON CONFLICT DO UPDATE command cannot affect row a second time".

Definition with_supabase_statement {A} (f : Store.t -> option (A * Store.t))
  : M A :=
  fun w =>
    match supabase w with
    | Some s =>
        match f s with
        | Some (a, s') => (Return a, set_supabase s' w)
        | None => (Raise statement_refused, w)
        end
    | None => (Raise supabase_is_None, w)
    end.

(** *** gemini_engine.py *)

Definition MODEL : string := "gemini-2.5-flash".

Definition get_client (env : Env) : M Client :=
  fun w =>
    match _client w with
    | Some c => (Return c, w)
    | None =>
        match GEMINI_API_KEY env with
        | None | Some EmptyString =>
            (Raise (PyError "RuntimeError"
                      "GEMINI_API_KEY not found in environment"), w)
        | Some k => let c := {| api_key := k |} in (Return c, set_client c w)
        end
    end.

(** [client.models.generate_content(model=.., contents=.., config=..).text] *)
Definition models_generate_content (env : Env) (client : Client)
    (req : GenRequest) : M (option string) :=
  fun w =>
    match generate_content env (length (sent w)) req with
    | Responded text => (Return text, log_request req w)
    | Failed cls msg => (Raise (PyError cls msg), log_request req w)
    end.

Definition loads (env : Env) (text : option string) : M value :=
  match json_loads env text with
  | inl v => mret v
  | inr (cls, msg) => raise (PyError cls msg)
  end.

Definition prompt_intro : string :=
  "
        You are an elite Career Strategy Engine with deep expertise in global tech markets and recruitment algorithms. 
        Analyze the inputs provided to generate a high-fidelity, actionable job readiness report.

        INPUT DATA:
        - TARGET ROLE: ".

Definition prompt_resume : string :=
  "
        - RESUME CONTENT: ".

Definition prompt_context : string :=
  "
        - ADDITIONAL CONTEXT/SKILLS: ".

Definition prompt_tasks : string :=
  "

        ANALYTICAL TASKS:
        1. READINESS SCORE: Calculate a percentage (0-100) based on how the Resume + Known Skills align with current industry expectations for the TARGET ROLE.
        2. SKILL QUANTIZATION:
        - 'skills': Verified assets found in the input.
        - 'required_skills': The industry-standard stack for the target role in 2025.
        - 'missing_skills': The critical gap the user must bridge.
        3. MARKET PIVOTS: Identify 3-5 'eligible_roles' where the user's current skill overlap is >80%.
        4. COMPENSATION BENCHMARKING: Provide estimated annual salary tiers in INR (India Market) formatted with commas (e.g., " +:+ dq +:+ "12,00,000" +:+ dq +:+ ").
        5. MULTI-TRACK MASTERY ROADMAP: Generate exhaustive day-by-day upskilling plans for 30, 60, and 90-day durations.

        ROADMAP CONTENT STANDARDS:
        - 'day': Format as " +:+ dq +:+ "Day X" +:+ dq +:+ ".
        - 'video': Provide a direct YouTube search link: https://www.youtube.com/results?search_query=[topic]+tutorial.
        - 'practice': Provide a specific LeetCode problem URL, a GitHub repo template, or a highly specific project idea.
        - 'docs': Provide the absolute URL to the official technical documentation (e.g., docs.python.org, react.dev).

        STRICT OUTPUT RULE: Return valid JSON ONLY. No conversational filler.

        RESPONSE SCHEMA:
        {
        " +:+ dq +:+ "readiness_score" +:+ dq +:+ ": 0,
        " +:+ dq +:+ "skills" +:+ dq +:+ ": [" +:+ dq +:+ "string" +:+ dq +:+ "],
        " +:+ dq +:+ "required_skills" +:+ dq +:+ ": [" +:+ dq +:+ "string" +:+ dq +:+ "],
        " +:+ dq +:+ "missing_skills" +:+ dq +:+ ": [" +:+ dq +:+ "string" +:+ dq +:+ "],
        " +:+ dq +:+ "eligible_roles" +:+ dq +:+ ": [" +:+ dq +:+ "string" +:+ dq +:+ "],
        " +:+ dq +:+ "salary_tiers" +:+ dq +:+ ": {
            " +:+ dq +:+ "entry" +:+ dq +:+ ": " +:+ dq +:+ "string" +:+ dq +:+ ",
            " +:+ dq +:+ "mid" +:+ dq +:+ ": " +:+ dq +:+ "string" +:+ dq +:+ ",
            " +:+ dq +:+ "senior" +:+ dq +:+ ": " +:+ dq +:+ "string" +:+ dq +:+ "
        },
        " +:+ dq +:+ "preparation_plans" +:+ dq +:+ ": {
            " +:+ dq +:+ "30" +:+ dq +:+ ": [{ " +:+ dq +:+ "day" +:+ dq +:+ ": " +:+ dq +:+ "string" +:+ dq +:+ ", " +:+ dq +:+ "topic" +:+ dq +:+ ": " +:+ dq +:+ "string" +:+ dq +:+ ", " +:+ dq +:+ "description" +:+ dq +:+ ": " +:+ dq +:+ "string" +:+ dq +:+ ", " +:+ dq +:+ "video" +:+ dq +:+ ": " +:+ dq +:+ "string" +:+ dq +:+ ", " +:+ dq +:+ "practice" +:+ dq +:+ ": " +:+ dq +:+ "string" +:+ dq +:+ ", " +:+ dq +:+ "docs" +:+ dq +:+ ": " +:+ dq +:+ "string" +:+ dq +:+ " }],
            " +:+ dq +:+ "60" +:+ dq +:+ ": [{ " +:+ dq +:+ "day" +:+ dq +:+ ": " +:+ dq +:+ "string" +:+ dq +:+ ", " +:+ dq +:+ "topic" +:+ dq +:+ ": " +:+ dq +:+ "string" +:+ dq +:+ ", " +:+ dq +:+ "description" +:+ dq +:+ ": " +:+ dq +:+ "string" +:+ dq +:+ ", " +:+ dq +:+ "video" +:+ dq +:+ ": " +:+ dq +:+ "string" +:+ dq +:+ ", " +:+ dq +:+ "practice" +:+ dq +:+ ": " +:+ dq +:+ "string" +:+ dq +:+ ", " +:+ dq +:+ "docs" +:+ dq +:+ ": " +:+ dq +:+ "string" +:+ dq +:+ " }],
            " +:+ dq +:+ "90" +:+ dq +:+ ": [{ " +:+ dq +:+ "day" +:+ dq +:+ ": " +:+ dq +:+ "string" +:+ dq +:+ ", " +:+ dq +:+ "topic" +:+ dq +:+ ": " +:+ dq +:+ "string" +:+ dq +:+ ", " +:+ dq +:+ "description" +:+ dq +:+ ": " +:+ dq +:+ "string" +:+ dq +:+ ", " +:+ dq +:+ "video" +:+ dq +:+ ": " +:+ dq +:+ "string" +:+ dq +:+ ", " +:+ dq +:+ "practice" +:+ dq +:+ ": " +:+ dq +:+ "string" +:+ dq +:+ ", " +:+ dq +:+ "docs" +:+ dq +:+ ": " +:+ dq +:+ "string" +:+ dq +:+ " }]
        }
        }
    ".

(** [f"{known_skills}"] for an [Optional[str]] *)
Definition format_optional (s : option string) : string :=
  default "None" s.

Definition analysis_prompt (resume_text target_role : string)
    (known_skills : option string) : string :=
  prompt_intro +:+ target_role +:+ prompt_resume +:+ resume_text
  +:+ prompt_context +:+ format_optional known_skills +:+ prompt_tasks.

Definition analyze_resume (env : Env) (resume_text target_role : string)
    (known_skills : option string) : M value :=
  client ← get_client env;
  let prompt := analysis_prompt resume_text target_role known_skills in
  try_except
    (text ← models_generate_content env client
              {| model := MODEL; contents := prompt; config := JsonMode |};
     loads env text)
    (fun e =>
       mret (VDict [("error", VStr "AI Analysis Failed");
                    ("details", VStr (str_exn e))])).

(** *** main.py: request models *)

Record AnalyzeRequest := {
  resume_text : string;
  target_role : string;
  known_skills : option string
}.

(** [resume_text: str = Field(..., min_length=50)] *)
Definition valid_AnalyzeRequest (req : AnalyzeRequest) : Prop :=
  (50 ≤ String.length (resume_text req))%nat.

Record ProgressUpdate := {
  analysis_id : string;
  day_label : string;
  is_completed : bool;
  duration_type : string;
  skill_score : Z
}.

(** [skill_score: int = Field(5, ge=0, le=5)] *)
Definition valid_ProgressUpdate (data : ProgressUpdate) : Prop :=
  (0 ≤ skill_score data ≤ 5)%Z.

Record ExplainRequest := { topic : string; description : string }.

(** The decoded token [verify_firebase_token] yields; the handlers read
    its [uid]. *)
Record CallerIdentity := { uid : string }.

(** *** main.py: analyze *)

(** The row dictionary of step 2, built key by key in source order. *)
Definition analysis_fields_of (user_id : string) (req : AnalyzeRequest)
    (analysis_result : value) : result Store.analysis_fields :=
  eligible_roles ← py_get analysis_result "eligible_roles" (VList []);
  score ← py_get analysis_result "readiness_score" (VInt 0);
  readiness_score ← py_int score;
  skills ← py_get analysis_result "skills" (VList []);
  required_skills ← py_get analysis_result "required_skills" (VList []);
  missing_skills ← py_get analysis_result "missing_skills" (VList []);
  salary_tiers ← py_get analysis_result "salary_tiers" (VDict []);
  preparation_plans ← py_get analysis_result "preparation_plans" (VDict []);
  Return {| Store.user_id := user_id;
            Store.target_role := target_role req;
            Store.eligible_roles := eligible_roles;
            Store.readiness_score := readiness_score;
            Store.skills := skills;
            Store.required_skills := required_skills;
            Store.missing_skills := missing_skills;
            Store.salary_tiers := salary_tiers;
            Store.preparation_plans := preparation_plans |}.

(** The body of the inner loop of step 3: one progress row per task. *)
Definition seed_task (analysis_id user_id duration : string) (task : value)
  : result Store.progress_payload :=
  day ← py_get task "day" VNone;
  Return {| Store.key := (user_id, analysis_id, py_str day, duration);
            Store.new_is_completed := false;
            Store.new_skill_score := 5;
            Store.new_updated_at := None |}.

Definition seed_bucket (analysis_id user_id : string)
    (item : string * value) : result (list Store.progress_payload) :=
  tasks ← py_iter item.2;
  mapM_result (seed_task analysis_id user_id item.1) tasks.

(** [progress_rows] after the two nested loops over [plans.items()]. *)
Definition seed_rows (analysis_id user_id : string) (plans : value)
  : result (list Store.progress_payload) :=
  items ← py_items plans;
  buckets ← mapM_result (seed_bucket analysis_id user_id) items;
  Return (concat buckets).

(** [analysis_result["id"] = analysis_id] *)
Definition py_setitem (v : value) (k : string) (x : value) : result value :=
  match v with
  | VDict d => Return (VDict (dict_set d k x))
  | _ => Raise (interp_error "TypeError" "setitem" v)
  end.

Definition analyze_persist (env : Env) (req : AnalyzeRequest)
    (user_id : string) (analysis_result : value) : M value :=
  row ← lift (analysis_fields_of user_id req analysis_result);
  data ← with_supabase (Store.insert row);
  match data with
  | [] => raise (HTTPException 500 (VStr "Database Sync Failed."))
  | first :: _ =>
      let analysis_id := Store.id first in
      analysis_result ← lift (py_setitem analysis_result "id" (VStr analysis_id));
      plans ← lift (py_get analysis_result "preparation_plans" (VDict []));
      progress_rows ← lift (seed_rows analysis_id user_id plans);
      _ ← match progress_rows with
          | [] => mret []
          | _ => with_supabase_statement
                   (Store.upsert (now env) progress_rows)
          end;
      mret analysis_result
  end.

Definition analyze (env : Env) (req : AnalyzeRequest) (user : CallerIdentity)
  : M value :=
  try_except
    (analysis_result ← analyze_resume env (resume_text req) (target_role req)
                         (known_skills req);
     has_error ← lift (py_contains "error" analysis_result);
     _ ← (if has_error : bool then
            err ← lift (py_getitem analysis_result "error");
            let status := if str_contains "429" (py_str err) then 429%Z else 503%Z in
            details ← lift (py_getitem analysis_result "details");
            raise (new_HTTPException status details)
          else mret tt);
     let user_id := uid user in
     w ← get_world;
     match supabase w with
     | Some _ => analyze_persist env req user_id analysis_result
     | None => mret analysis_result
     end)
    (fun e =>
       match e with
       | HTTPException _ _ => raise e
       | PyError _ _ =>
           raise (HTTPException 500 (VStr "Internal processing error."))
       end).

(** *** main.py: progress and records *)

Record UpdateResponse := {
  status : string;
  data : list (Store.progress_key * Store.progress_row)
}.

Definition update_progress (env : Env) (data : ProgressUpdate)
    (user : CallerIdentity) : M UpdateResponse :=
  w ← get_world;
  match supabase w with
  | None => raise (HTTPException 500 (VStr "Supabase offline"))
  | Some _ =>
      try_except
        (let user_id := uid user in
         res ← with_supabase_statement
                 (Store.upsert (now env)
                    [ {| Store.key := (user_id, analysis_id data,
                                       day_label data, duration_type data);
                         Store.new_is_completed := is_completed data;
                         Store.new_skill_score := skill_score data;
                         Store.new_updated_at := Some Store.now_call |} ]);
         mret {| status := "success"; data := res |})
        (fun e =>
           raise (HTTPException 500 (VStr "Database conflict detected.")))
  end.

Definition get_progress (analysis_id : string) (user : CallerIdentity)
  : M (list (Store.progress_key * Store.progress_row)) :=
  w ← get_world;
  match supabase w with
  | None => mret []
  | Some _ =>
      let user_id := uid user in
      with_supabase (fun s => (Store.select_progress analysis_id user_id s, s))
  end.

Definition get_records (user : CallerIdentity) : M (list Store.analysis_row) :=
  w ← get_world;
  match supabase w with
  | None => mret []
  | Some _ =>
      let user_id := uid user in
      with_supabase (fun s => (Store.select_analyses user_id s, s))
  end.

Definition delete_record (record_id : string) (user : CallerIdentity)
  : M string :=
  let user_id := uid user in
  _ ← with_supabase (fun s => (tt, Store.delete record_id user_id s));
  mret "success".

(** *** main.py: explain_task *)

(** [response.text] as a value of the returned object *)
Definition text_value (text : option string) : value :=
  match text with
  | Some t => VStr t
  | None => VNone
  end.

Definition explain_prompt (req : ExplainRequest) : string :=
  "You are a Senior Technical Mentor. Explain the topic '" +:+ topic req
  +:+ "' " +:+ "clearly for a student. Context: " +:+ description req
  +:+ ". "
  +:+ "Use bullet points, keep it under 150 words, and focus on practical application.".

Definition explain_fallback : string :=
  "Neural Link offline. The AI Mentor is currently recalibrating.".

Definition explain_task (env : Env) (req : ExplainRequest)
    (user : CallerIdentity) : M value :=
  try_except
    (client ← get_client env;
     let prompt := explain_prompt req in
     text ← models_generate_content env client
              {| model := MODEL; contents := prompt; config := NoConfig |};
     mret (VDict [("explanation", text_value text)]))
    (fun e => mret (VDict [("explanation", VStr explain_fallback)])).

End Backend.

(** *** main.py: mock_interview, the definition at lines 195-226 *)

Module FirstDefinition.
Section Handler.
Context `{PyRuntime}.

(** [last_answer] defaults to the empty string, [history] to the empty
    list. *)
Record InterviewRequest := {
  target_role : string;
  last_answer : string;
  history : list value
}.

Definition system_instruction_of (req : InterviewRequest) : string :=
  "You are a Senior Technical Interviewer for the role of "
  +:+ target_role req +:+ ". "
  +:+ "Your goal is to assess the candidate's depth of knowledge. "
  +:+ "1. Ask only ONE technical question at a time. "
  +:+ "2. If the user provides an answer, give a brief 1-sentence feedback and then ask a follow-up or new question. "
  +:+ "3. Keep the conversation professional and challenging. "
  +:+ "4. If the user says 'start', ask the first introductory technical question.".

(** A message [{"role": r, "parts": ps}] *)
Record Message := { role : string; parts : list value }.

Definition entry_messages (entry : value) : result (list Message) :=
  q ← py_getitem entry "q";
  a ← py_getitem entry "a";
  Return [ {| role := "user"; parts := [q] |};
           {| role := "model"; parts := [a] |} ].

(** [messages] after the loop over [req.history] *)
Definition messages_of (system_instruction : string) (history : list value)
  : result (list Message) :=
  turns ← mapM_result entry_messages history;
  Return ({| role := "user"; parts := [VStr system_instruction] |}
            :: concat turns).

Definition input_text_of (req : InterviewRequest) : string :=
  match last_answer req with
  | EmptyString => "Let's start the interview."
  | answer => answer
  end.

Definition mock_interview (env : Env) (req : InterviewRequest)
    (user : CallerIdentity) : M value :=
  try_except
    (client ← get_client env;
     let system_instruction := system_instruction_of req in
     messages ← lift (messages_of system_instruction (history req));
     let input_text := input_text_of req in
     text ← models_generate_content env client
              {| model := MODEL; contents := input_text;
                 config := SystemInstruction system_instruction |};
     mret (VDict [("question", text_value text)]))
    (fun e => raise (HTTPException 500 (VStr (str_exn e)))).

End Handler.
End FirstDefinition.

(** *** main.py: mock_interview, the definition at lines 237-271 *)

Module SecondDefinition.
Section Handler.
Context `{PyRuntime}.

(** [last_answer: str], [history: List[dict]] *)
Record InterviewRequest := {
  target_role : string;
  last_answer : string;
  history : list (list (string * value))
}.

Definition persona_of (req : InterviewRequest) : string :=
  "You are a Senior Technical Lead at a top-tier tech company. "
  +:+ "You are conducting a technical interview for the role of "
  +:+ target_role req +:+ ". "
  +:+ "STRICT RULES: "
  +:+ "1. Ask exactly ONE technical question at a time. "
  +:+ "2. Evaluate the user's previous answer briefly (2 sentences max). "
  +:+ "3. Progress from fundamental concepts to complex architecture. "
  +:+ "4. If the user's answer is weak, ask a clarifying follow-up. "
  +:+ "5. Maintain a professional, slightly intimidating but fair tone.".

(** [f"Interviewer: {entry['q']}\nCandidate: {entry['a']}\n"] *)
Definition entry_lines (entry : list (string * value)) : result string :=
  q ← py_getitem (VDict entry) "q";
  a ← py_getitem (VDict entry) "a";
  Return ("Interviewer: " +:+ py_str q +:+ LF
          +:+ "Candidate: " +:+ py_str a +:+ LF).

(** [chat_context] as the loop extends it, entry by entry *)
Fixpoint extend_context (chat_context : string)
    (history : list (list (string * value))) : result string :=
  match history with
  | [] => Return chat_context
  | entry :: rest =>
      lines ← entry_lines entry;
      extend_context (chat_context +:+ lines) rest
  end.

Definition chat_context_of (req : InterviewRequest) : result string :=
  chat_context ← extend_context ("Target Role: " +:+ target_role req +:+ LF)
                    (history req);
  Return (chat_context +:+ "Candidate's latest response: " +:+ last_answer req).

Definition mock_interview (env : Env) (req : InterviewRequest)
    (user : CallerIdentity) : M value :=
  try_except
    (client ← get_client env;
     let persona := persona_of req in
     chat_context ← lift (chat_context_of req);
     text ← models_generate_content env client
              {| model := MODEL; contents := chat_context;
                 config := SystemInstruction persona |};
     mret (VDict [("question", text_value text)]))
    (fun e => raise (HTTPException 500 (VStr "Neural link failed."))).

End Handler.
End SecondDefinition.

(** The application registers both definitions for POST /mock-interview,
    in source order; the router hands a request to the first registered
    route that matches, so it is the first definition that serves. *)
Definition route_mock_interview `{PyRuntime} := FirstDefinition.mock_interview.

(** The status line a handler outcome yields; an exception other than
    [HTTPException] leaves the handler unanswered. *)
Definition http_status `{PyRuntime} {A} (r : result A) : option Z :=
  match r with
  | Return _ => Some 200%Z
  | Raise (HTTPException status_code _) => Some status_code
  | Raise (PyError _ _) => None
  end.

(** ** Authentication and start-up *)

Section Auth.
Context `{PyRuntime}.

(** *** firebase_auth.py *)

(** [verify_firebase_token]: [auth.verify_id_token] yields the decoded
    token or raises (class and text of the exception). *)
Definition verify_firebase_token
    (verify_id_token : string -> CallerIdentity + string * string)
    (credentials : string) : M CallerIdentity :=
  let token := credentials in
  try_except
    (match verify_id_token token with
     | inl decoded_token => mret decoded_token
     | inr (cls, msg) => raise (PyError cls msg)
     end)
    (fun e => raise (HTTPException 401 (VStr "Invalid Neural Link Token"))).

(** A handler declared with [user=Depends(verify_firebase_token)]: the
    dependency is resolved first and its result passed as [user]. *)
Definition authenticated {A}
    (verify_id_token : string -> CallerIdentity + string * string)
    (credentials : string) (handler : CallerIdentity -> M A) : M A :=
  user ← verify_firebase_token verify_id_token credentials;
  handler user.

(** *** main.py: lifespan *)

(** [bool(s)] for an [Optional[str]] *)
Definition truthy (s : option string) : bool :=
  match s with
  | None | Some EmptyString => false
  | Some _ => true
  end.

(** The part of [lifespan] before [yield]; [acreate_client] is the
    client constructor. *)
Definition lifespan_startup (SUPABASE_URL SUPABASE_KEY : option string)
    (acreate_client : string -> string -> Store.t) (w : World) : World :=
  match SUPABASE_URL, SUPABASE_KEY with
  | Some url, Some key =>
      if truthy SUPABASE_URL && truthy SUPABASE_KEY
      then set_supabase (acreate_client url key) w
      else w
  | _, _ => w
  end.

End Auth.

(** ** A runtime to evaluate the handlers on concrete requests

    No floats; [repr] of a string puts it between single quotes, which is
    what the interpreter prints for text without quotes, backslashes or
    control characters; [int] of a string reads nothing.  The examples
    below stay on inputs where these conversions are not reached or agree
    with the interpreter. *)

Definition plain_runtime : PyRuntime :=
  {| float := Empty_set;
     float_str := fun x => match x with end;
     float_int := fun x => match x with end;
     str_repr := fun s => "'" +:+ s +:+ "'";
     str_int := fun _ => None;
     interp_text := fun op ty => op +:+ ": " +:+ ty |}.

(** ** Vocabulary of the properties *)

#[local] Open Scope nat_scope.

Section Vocabulary.
Context `{PyRuntime}.

(** The error result of [analyze_resume] for an exception whose text is
    [msg]. *)
Definition error_result (msg : string) : value :=
  VDict [("error", VStr "AI Analysis Failed"); ("details", VStr msg)].

(** The requests the handlers hand to the provider. *)
Definition analysis_request (req : AnalyzeRequest) : GenRequest :=
  {| model := MODEL;
     contents := analysis_prompt (resume_text req) (target_role req)
                   (known_skills req);
     config := JsonMode |}.

Definition explain_request (req : ExplainRequest) : GenRequest :=
  {| model := MODEL; contents := explain_prompt req; config := NoConfig |}.

Definition first_request (req : FirstDefinition.InterviewRequest)
  : GenRequest :=
  {| model := MODEL;
     contents := FirstDefinition.input_text_of req;
     config := SystemInstruction (FirstDefinition.system_instruction_of req) |}.

(** The rows of a table stored under one conflict key. *)
Definition rows_at (k : Store.progress_key)
    (tbl : gmap Store.progress_key Store.progress_row)
  : list (Store.progress_key * Store.progress_row) :=
  filter (fun kr => kr.1 = k) (map_to_list tbl).


(** The row [seed_task] builds for a task with the given fields. *)
Definition seeded_row (analysis_id user_id duration : string)
    (fields : list (string * value)) : Store.progress_payload :=
  {| Store.key := (user_id, analysis_id,
                   py_str (default VNone (dict_get fields "day")), duration);
     Store.new_is_completed := false;
     Store.new_skill_score := 5;
     Store.new_updated_at := None |}.

Definition is_seed (analysis_id user_id : string)
    (p : Store.progress_payload) : Prop :=
  Store.key_user_id (Store.key p) = user_id
  ∧ Store.key_analysis_id (Store.key p) = analysis_id
  ∧ Store.new_is_completed p = false
  ∧ Store.new_skill_score p = 5%Z
  ∧ Store.new_updated_at p = None.

(** The number of tasks the two seeding loops run over. *)
Definition bucket_size (item : string * value) : result nat :=
  tasks ← py_iter item.2; Return (length tasks).

Definition task_count (plans : value) : result nat :=
  items ← py_items plans;
  sizes ← mapM_result bucket_size items;
  Return (sum_list sizes).

(** The store [analyze] leaves when it persists [fields] and seeds [rows]. *)
Definition persisted (now : N) (fields : Store.analysis_fields)
    (rows : list Store.progress_payload) (s : Store.t) : Store.t :=
  {| Store.analyses :=
       {| Store.id := string_of_N (Store.next_id s); Store.fields := fields |}
         :: Store.analyses s;
     Store.roadmap_progress :=
       Store.upsert_rows now rows (Store.roadmap_progress s);
     Store.next_id := N.succ (Store.next_id s) |}.



Definition schema_keys : list string :=
  ["readiness_score"; "skills"; "required_skills"; "missing_skills";
   "eligible_roles"; "salary_tiers"; "preparation_plans"].

Definition duration_keys : list string := ["30"; "60"; "90"].

(** [v[k]] when [v] is a dict that has [k] *)
Definition member (v : value) (k : string) : option value :=
  match v with
  | VDict d => dict_get d k
  | _ => None
  end.

(** All seven schema keys, and [preparation_plans] a mapping of exactly
    the three duration keys to sequences. *)
Definition has_schema (v : value) : Prop :=
  (∀ k, k ∈ schema_keys -> is_Some (member v k))
  ∧ ∃ plans, member v "preparation_plans" = Some (VDict plans)
      ∧ (∀ k, is_Some (dict_get plans k) <-> k ∈ duration_keys)
      ∧ (∀ k tasks, dict_get plans k = Some tasks -> ∃ l, tasks = VList l).

Definition update_key (user : CallerIdentity) (data : ProgressUpdate)
  : Store.progress_key :=
  (uid user, analysis_id data, day_label data, duration_type data).

(** The row an update leaves under its key when written at time [t]. *)
Definition updated_row (t : N) (data : ProgressUpdate) : Store.progress_row :=
  {| Store.is_completed := is_completed data;
     Store.skill_score := skill_score data;
     Store.updated_at := Some t |}.

Definition updated_store (t : N) (user : CallerIdentity)
    (data : ProgressUpdate) (s : Store.t) : Store.t :=
  {| Store.analyses := Store.analyses s;
     Store.roadmap_progress :=
       <[update_key user data := updated_row t data]> (Store.roadmap_progress s);
     Store.next_id := Store.next_id s |}.

(** A progress row under key [k] references an analysis of the same user. *)
Definition references_analysis (s : Store.t) (k : Store.progress_key) : Prop :=
  ∃ a, a ∈ Store.analyses s
    ∧ Store.id a = Store.key_analysis_id k
    ∧ Store.user_id (Store.fields a) = Store.key_user_id k.

Definition referential_integrity (s : Store.t) : Prop :=
  ∀ k row, Store.roadmap_progress s !! k = Some row -> references_analysis s k.

(** The store a world holds, the empty one when it holds none. *)
Definition store_of (w : World) : Store.t := default Store.empty (supabase w).

(** The stored [updated_at] under the key of an update. *)
Definition updated_at_of (user : CallerIdentity) (data : ProgressUpdate)
    (w : World) : option N :=
  s ← supabase w;
  row ← Store.roadmap_progress s !! update_key user data;
  Store.updated_at row.

(** The number of rows [get_progress] returns. *)
Definition progress_count (analysis_id : string) (user : CallerIdentity)
    (w : World) : result nat :=
  length <$> (get_progress analysis_id user w).1.

End Vocabulary.

(** ** Vocabulary of the further properties *)

Section FurtherVocabulary.
Context `{PyRuntime}.

Definition is_py_error (e : exn) : Prop :=
  match e with
  | PyError _ _ => True
  | HTTPException _ _ => False
  end.

Definition internal_error : exn :=
  HTTPException 500 (VStr "Internal processing error.").

Definition missing_key_error : exn :=
  PyError "RuntimeError" "GEMINI_API_KEY not found in environment".

(** The process before start-up. *)
Definition fresh : World :=
  {| supabase := None; _client := None; sent := [] |}.

(** What [analyze_resume] makes of the provider's outcome. *)
Definition generated (env : Env) (n : nat) (request : GenRequest) : value :=
  match generate_content env n request with
  | Responded text =>
      match json_loads env text with
      | inl v => v
      | inr (cls, msg) => error_result msg
      end
  | Failed cls msg => error_result msg
  end.

(** The outcome of the persistence step of [analyze] on a store [s]. *)
Definition persist_outcome (env : Env) (req : AnalyzeRequest)
    (user : CallerIdentity) (v : value) (s : Store.t) (w : World)
  : result value * World :=
  let analysis_id := string_of_N (Store.next_id s) in
  match analysis_fields_of (uid user) req v with
  | Raise _ => (Raise internal_error, w)
  | Return fields =>
      match py_setitem v "id" (VStr analysis_id) with
      | Raise _ =>
          (Raise internal_error,
           set_supabase (persisted (now env) fields [] s) w)
      | Return r =>
          match py_get r "preparation_plans" (VDict [])
                ≫= seed_rows analysis_id (uid user) with
          | Raise _ =>
              (Raise internal_error,
               set_supabase (persisted (now env) fields [] s) w)
          | Return rows =>
              if decide (NoDup (Store.key <$> rows)) then
                (Return r, set_supabase (persisted (now env) fields rows s) w)
              else
                (Raise internal_error,
                 set_supabase (persisted (now env) fields [] s) w)
          end
      end
  end.

(** The outcome of [analyze] once the generation step produced [v]. *)
Definition analyze_outcome (env : Env) (req : AnalyzeRequest)
    (user : CallerIdentity) (v : value) (w : World)
  : result value * World :=
  match py_contains "error" v with
  | Raise _ => (Raise internal_error, w)
  | Return true =>
      match py_getitem v "error" with
      | Raise _ => (Raise internal_error, w)
      | Return err =>
          match py_getitem v "details" with
          | Raise _ => (Raise internal_error, w)
          | Return details =>
              (Raise (new_HTTPException
                        (if str_contains "429" (py_str err) then 429 else 503)
                        details), w)
          end
      end
  | Return false =>
      match supabase w with
      | None => (Return v, w)
      | Some s => persist_outcome env req user v s w
      end
  end.

(** A generated value on which the error check of [analyze] itself
    fails: a scalar, a list or text that contains "error", or a dict with
    an [error] entry and no [details]. *)
Definition malformed_generation (v : value) : Prop :=
  match v with
  | VNone | VBool _ | VInt _ | VFloat _ => True
  | VList l => existsb (is_str "error") l = true
  | VStr s => str_contains "error" s = true
  | VDict d => is_Some (dict_get d "error") ∧ dict_get d "details" = None
  end.

Definition scores_in_range (s : Store.t) : Prop :=
  ∀ k row, Store.roadmap_progress s !! k = Some row ->
    (0 ≤ Store.skill_score row ≤ 5)%Z.

(** The request the second definition hands to the provider for a context. *)
Definition second_request (req : SecondDefinition.InterviewRequest)
    (chat_context : string) : GenRequest :=
  {| model := MODEL;
     contents := chat_context;
     config := SystemInstruction (SecondDefinition.persona_of req) |}.

End FurtherVocabulary.

(** ** Requests, environments and worlds of the examples *)

Section Examples.
#[local] Existing Instance plain_runtime.

Definition quoted (s : string) : string := dq +:+ s +:+ dq.

Definition alice : CallerIdentity := {| uid := "alice" |}.

Definition resume_request : AnalyzeRequest :=
  {| resume_text :=
       "Backend developer with five years of Python, FastAPI and PostgreSQL.";
     target_role := "Backend Engineer";
     known_skills := Some "Docker" |}.

(** No persistence client was created at start-up. *)
Definition offline : World :=
  {| supabase := None; _client := None; sent := [] |}.

(** A persistence client over an empty database. *)
Definition online : World :=
  {| supabase := Some Store.empty; _client := None; sent := [] |}.

(** The provider answers every request with [text], [json.loads] reads
    [text] as [parsed], and the database clock shows [t]. *)
Definition answering (text : string) (parsed : value) (t : N) : Env :=
  {| GEMINI_API_KEY := Some "key-of-the-examples";
     generate_content := fun _ _ => Responded (Some text);
     json_loads := fun s =>
       match s with
       | Some s' =>
           if String.eqb s' text then inl parsed
           else inr ("JSONDecodeError",
                     "Expecting value: line 1 column 1 (char 0)")
       | None =>
           inr ("TypeError",
                "the JSON object must be str, bytes or bytearray, not NoneType")
       end;
     now := t |}.

(** The provider raises on every request. *)
Definition failing (cls msg : string) (t : N) : Env :=
  {| GEMINI_API_KEY := Some "key-of-the-examples";
     generate_content := fun _ _ => Failed cls msg;
     json_loads := fun _ =>
       inr ("JSONDecodeError", "Expecting value: line 1 column 1 (char 0)");
     now := t |}.

(** GEMINI_API_KEY is not set. *)
Definition without_key : Env :=
  {| GEMINI_API_KEY := None;
     generate_content := fun _ _ => Responded (Some "unreachable");
     json_loads := fun _ =>
       inr ("JSONDecodeError", "Expecting value: line 1 column 1 (char 0)");
     now := 0%N |}.

(** A generated object with two of the seven keys and one of the three
    plans. *)
Definition partial_text : string :=
  "{" +:+ quoted "readiness_score" +:+ ": 70, "
  +:+ quoted "preparation_plans" +:+ ": {" +:+ quoted "30" +:+ ": []}}".

Definition partial_result : value :=
  VDict [("readiness_score", VInt 70);
         ("preparation_plans", VDict [("30", VList [])])].

(** A plan of three tasks, two of them labelled "Day 1" and one without a
    [day]. *)
Definition repeated_day_text : string :=
  "{" +:+ quoted "preparation_plans" +:+ ": {" +:+ quoted "30" +:+ ": [{"
  +:+ quoted "day" +:+ ": " +:+ quoted "Day 1" +:+ "}, {"
  +:+ quoted "day" +:+ ": " +:+ quoted "Day 1" +:+ "}, {"
  +:+ quoted "topic" +:+ ": " +:+ quoted "Indexes" +:+ "}]}}".

Definition repeated_day_tasks : list value :=
  [VDict [("day", VStr "Day 1")]; VDict [("day", VStr "Day 1")];
   VDict [("topic", VStr "Indexes")]].

Definition repeated_day_plans : value :=
  VDict [("30", VList repeated_day_tasks)].

Definition repeated_day_result : value :=
  VDict [("preparation_plans", repeated_day_plans)].

(** A plan of three tasks with different labels within each duration. *)
Definition three_task_text : string :=
  "{" +:+ quoted "readiness_score" +:+ ": 62, "
  +:+ quoted "preparation_plans" +:+ ": {" +:+ quoted "30" +:+ ": [{"
  +:+ quoted "day" +:+ ": " +:+ quoted "Day 1" +:+ "}, {"
  +:+ quoted "day" +:+ ": " +:+ quoted "Day 2" +:+ "}], "
  +:+ quoted "60" +:+ ": [{"
  +:+ quoted "day" +:+ ": " +:+ quoted "Day 1" +:+ "}], "
  +:+ quoted "90" +:+ ": []}}".

Definition three_task_plans : value :=
  VDict [("30", VList [VDict [("day", VStr "Day 1")];
                       VDict [("day", VStr "Day 2")]]);
         ("60", VList [VDict [("day", VStr "Day 1")]]);
         ("90", VList [])].

Definition three_task_result : value :=
  VDict [("readiness_score", VInt 62);
         ("preparation_plans", three_task_plans)].

Definition day1_done : ProgressUpdate :=
  {| analysis_id := "1"; day_label := "Day 1"; is_completed := true;
     duration_type := "30"; skill_score := 3 |}.

Definition day1_reopened : ProgressUpdate :=
  {| analysis_id := "1"; day_label := "Day 1"; is_completed := false;
     duration_type := "30"; skill_score := 4 |}.

(** An update for an analysis id no analysis carries. *)
Definition stray_update : ProgressUpdate :=
  {| analysis_id := "no-such-analysis"; day_label := "Day 1";
     is_completed := true; duration_type := "30"; skill_score := 3 |}.

Definition mentor_request : ExplainRequest :=
  {| topic := "Connection pooling";
     description := "Reuse database connections across requests" |}.

(** One earlier turn, and the answer to the question that followed it. *)
Definition second_turn : FirstDefinition.InterviewRequest :=
  {| FirstDefinition.target_role := "Site Reliability Engineer";
     FirstDefinition.last_answer := "A rolling restart keeps capacity.";
     FirstDefinition.history :=
       [VDict [("q", VStr "How do you deploy without downtime?");
               ("a", VStr "With blue-green environments.")]] |}.

Definition bob : CallerIdentity := {| uid := "bob" |}.

Definition example_client : Client := {| api_key := "key-of-the-examples" |}.

Definition three_task_env : Env :=
  answering three_task_text three_task_result 10.

(** What [analyze] returns for the three tasks on the empty database. *)
Definition three_task_response : value :=
  VDict [("readiness_score", VInt 62);
         ("preparation_plans", three_task_plans);
         ("id", VStr "1")].

Definition partial_env : Env := answering partial_text partial_result 10.

Definition partial_response : value :=
  VDict [("readiness_score", VInt 70);
         ("preparation_plans", VDict [("30", VList [])]);
         ("id", VStr "1")].

Definition repeated_day_env : Env :=
  answering repeated_day_text repeated_day_result 10.

Definition repeated_day_rows : list Store.progress_payload :=
  [seeded_row "1" "alice" "30" [("day", VStr "Day 1")];
   seeded_row "1" "alice" "30" [("day", VStr "Day 1")];
   seeded_row "1" "alice" "30" [("topic", VStr "Indexes")]].

(** The provider reports that its quota is exhausted. *)
Definition rate_limited_env : Env :=
  failing "ClientError" "429 RESOURCE_EXHAUSTED" 10.

Definition overloaded_env : Env := failing "ServerError" "503 UNAVAILABLE" 10.

Definition mentor_env : Env :=
  answering "Keep a pool of open connections." VNone 10.

Definition interviewer_env : Env :=
  answering "What is an error budget?" VNone 10.

(** Two readings of the database clock. *)
Definition at_noon : Env := answering three_task_text three_task_result 12.
Definition at_one : Env := answering three_task_text three_task_result 13.

(** The world after alice's analysis of the three tasks. *)
Definition seeded : World :=
  (analyze three_task_env resume_request alice online).2.

Definition seeded_store : Store.t := store_of seeded.

(** [messages] as the first definition builds it for [second_turn]. *)
Definition second_turn_messages : list FirstDefinition.Message :=
  [ {| FirstDefinition.role := "user";
       FirstDefinition.parts :=
         [VStr (FirstDefinition.system_instruction_of second_turn)] |};
    {| FirstDefinition.role := "user";
       FirstDefinition.parts := [VStr "How do you deploy without downtime?"] |};
    {| FirstDefinition.role := "model";
       FirstDefinition.parts := [VStr "With blue-green environments."] |} ].

End Examples.

(** ** Further examples *)

Section FurtherExamples.
#[local] Existing Instance plain_runtime.

(** The model itself writes an object that reports throttling. *)
Definition throttled_text : string :=
  "{" +:+ quoted "error" +:+ ": " +:+ quoted "429 quota exceeded" +:+ ", "
  +:+ quoted "details" +:+ ": " +:+ quoted "retry later" +:+ "}".

Definition throttled_fields : list (string * value) :=
  [("error", VStr "429 quota exceeded"); ("details", VStr "retry later")].

Definition throttled_env : Env :=
  answering throttled_text (VDict throttled_fields) 10.

(** The model reports throttling and gives no details. *)
Definition unexplained_text : string :=
  "{" +:+ quoted "error" +:+ ": " +:+ quoted "429 quota exceeded" +:+ ", "
  +:+ quoted "details" +:+ ": null}".

Definition unexplained_fields : list (string * value) :=
  [("error", VStr "429 quota exceeded"); ("details", VNone)].

Definition unexplained_env : Env :=
  answering unexplained_text (VDict unexplained_fields) 10.

(** The model writes a bare number. *)
Definition number_env : Env := answering "42" (VInt 42) 10.

(** The plans are a list where a mapping is expected. *)
Definition unseedable_text : string :=
  "{" +:+ quoted "preparation_plans" +:+ ": []}".

Definition unseedable_fields : list (string * value) :=
  [("preparation_plans", VList [])].

Definition unseedable_env : Env :=
  answering unseedable_text (VDict unseedable_fields) 10.

Definition unseedable_row : Store.analysis_fields :=
  {| Store.user_id := "alice";
     Store.target_role := "Backend Engineer";
     Store.eligible_roles := VList [];
     Store.readiness_score := 0;
     Store.skills := VList [];
     Store.required_skills := VList [];
     Store.missing_skills := VList [];
     Store.salary_tiers := VDict [];
     Store.preparation_plans := VList [] |}.

(** The score is null. *)
Definition null_score_text : string :=
  "{" +:+ quoted "readiness_score" +:+ ": null}".

Definition null_score_result : value := VDict [("readiness_score", VNone)].

Definition null_score_env : Env :=
  answering null_score_text null_score_result 10.

(** Only the skills are there. *)
Definition skills_only_text : string :=
  "{" +:+ quoted "skills" +:+ ": [" +:+ quoted "Python" +:+ "]}".

Definition skills_only_fields : list (string * value) :=
  [("skills", VList [VStr "Python"])].

Definition skills_only_env : Env :=
  answering skills_only_text (VDict skills_only_fields) 10.

(** The identity service knows one token. *)
Definition verify_id_token_of_examples (token : string)
  : CallerIdentity + string * string :=
  if String.eqb token "token-of-alice" then inl alice
  else inr ("InvalidIdTokenError", "Token expired, 1762200000 < 1762203600").

Definition connect_to_empty (url key : string) : Store.t := Store.empty.

(** A turn whose history entry has an answer and no question. *)
Definition turn_without_question : FirstDefinition.InterviewRequest :=
  {| FirstDefinition.target_role := "Site Reliability Engineer";
     FirstDefinition.last_answer := "A rolling restart keeps capacity.";
     FirstDefinition.history :=
       [VDict [("a", VStr "With blue-green environments.")]] |}.

(** Two earlier turns, for the second definition. *)
Definition third_turn : SecondDefinition.InterviewRequest :=
  {| SecondDefinition.target_role := "Site Reliability Engineer";
     SecondDefinition.last_answer := "Burn rate over two windows.";
     SecondDefinition.history :=
       [[("q", VStr "How do you deploy without downtime?");
         ("a", VStr "With blue-green environments.")];
        [("q", VStr "How do you alert on an SLO?");
         ("a", VInt 3)]] |}.

Definition third_turn_lines : list string :=
  ["Interviewer: How do you deploy without downtime?" +:+ LF
   +:+ "Candidate: With blue-green environments." +:+ LF;
   "Interviewer: How do you alert on an SLO?" +:+ LF
   +:+ "Candidate: 3" +:+ LF].

Definition third_turn_context : string :=
  "Target Role: Site Reliability Engineer" +:+ LF
  +:+ "Interviewer: How do you deploy without downtime?" +:+ LF
  +:+ "Candidate: With blue-green environments." +:+ LF
  +:+ "Interviewer: How do you alert on an SLO?" +:+ LF
  +:+ "Candidate: 3" +:+ LF
  +:+ "Candidate's latest response: Burn rate over two windows.".

End FurtherExamples.

(** ** Facts about the store *)

#[local] Set Warnings "-clear-no-such-hyp".

Section StoreFacts.
Context `{PyRuntime}.
Implicit Types (tbl : gmap Store.progress_key Store.progress_row).
Implicit Types (ps : list Store.progress_payload).

Lemma rows_at_Some k tbl r : tbl !! k = Some r -> rows_at k tbl = [(k, r)].
Proof.
  intros Hk. apply Permutation_singleton_r. unfold rows_at.
  rewrite <-(map_to_list_delete _ _ _ Hk), filter_cons_True by done.
  constructor. apply Permutation_nil_r, elem_of_nil_inv. intros [k' r'].
  rewrite list_elem_of_filter, elem_of_map_to_list. cbn.
  intros [-> Hl]. by rewrite lookup_delete_eq in Hl.
Qed.

Lemma upsert_row_lookup now tbl p :
  Store.upsert_row now tbl p !! Store.key p
  = Some {| Store.is_completed := Store.new_is_completed p;
            Store.skill_score := Store.new_skill_score p;
            Store.updated_at :=
              match Store.new_updated_at p with
              | Some Store.now_call => Some now
              | None => tbl !! Store.key p ≫= Store.updated_at
              end |}.
Proof. unfold Store.upsert_row. by rewrite lookup_insert_eq. Qed.

Lemma upsert_row_lookup_ne now tbl p k :
  k ≠ Store.key p -> Store.upsert_row now tbl p !! k = tbl !! k.
Proof. intros Hk. unfold Store.upsert_row. by rewrite lookup_insert_ne. Qed.

Lemma upsert_rows_lookup_notin now ps tbl k :
  k ∉ Store.key <$> ps -> Store.upsert_rows now ps tbl !! k = tbl !! k.
Proof.
  unfold Store.upsert_rows. revert tbl.
  induction ps as [|p ps IH]; intros tbl Hk; [done|].
  rewrite fmap_cons, not_elem_of_cons in Hk. destruct Hk as [Hne Hk].
  cbn. rewrite IH by done. by apply upsert_row_lookup_ne.
Qed.

(** After a bulk upsert every key of the batch holds the values of one of
    the batch's rows for that key. *)
Lemma upsert_rows_lookup_in now ps tbl k :
  k ∈ Store.key <$> ps ->
  ∃ p row, p ∈ ps ∧ Store.key p = k
    ∧ Store.upsert_rows now ps tbl !! k = Some row
    ∧ Store.is_completed row = Store.new_is_completed p
    ∧ Store.skill_score row = Store.new_skill_score p.
Proof.
  unfold Store.upsert_rows. revert tbl.
  induction ps as [|p ps IH]; intros tbl Hk; [by apply elem_of_nil in Hk|].
  cbn. destruct (decide (k ∈ Store.key <$> ps)) as [Hin|Hout].
  - destruct (IH (Store.upsert_row now tbl p) Hin)
      as (p' & row & Hp' & Hkey & Hl & Hc & Hs).
    exists p', row. split; [by apply list_elem_of_further|]. done.
  - rewrite fmap_cons, elem_of_cons in Hk. destruct Hk as [->|]; [|done].
    pose proof (upsert_rows_lookup_notin now ps (Store.upsert_row now tbl p)
                  _ Hout) as Hl.
    unfold Store.upsert_rows in Hl.
    eexists p, _. split; [apply list_elem_of_here|]. split; [done|].
    split; [rewrite Hl; apply upsert_row_lookup|]. done.
Qed.



End StoreFacts.

(** ** Facts about seeding *)

Section Seeding.
Context `{PyRuntime}.

Lemma mapM_result_Return {A B} (f : A -> result B) l ys :
  mapM_result f l = Return ys -> Forall2 (fun x y => f x = Return y) l ys.
Proof.
  revert ys. induction l as [|x l IH]; intros ys Hm; cbn in Hm.
  - injection Hm as <-. constructor.
  - unfold mbind, result_bind in Hm. destruct (f x) as [y|] eqn:Hx; [|done].
    destruct (mapM_result f l) as [ys'|]; [|done].
    injection Hm as <-. constructor; auto.
Qed.

Lemma seed_task_Return aid u d task p :
  seed_task aid u d task = Return p ->
  ∃ fields, task = VDict fields ∧ p = seeded_row aid u d fields.
Proof.
  destruct task; try done. cbn. intros [= <-]. by eexists.
Qed.

Lemma seed_bucket_Return aid u item ps :
  seed_bucket aid u item = Return ps ->
  ∃ tasks, py_iter item.2 = Return tasks
    ∧ Forall2 (fun task p => seed_task aid u item.1 task = Return p) tasks ps.
Proof.
  unfold seed_bucket, mbind, result_bind.
  destruct (py_iter item.2) as [tasks|]; [|done].
  intros Hm. exists tasks. split; [done|]. by apply mapM_result_Return.
Qed.

Lemma seed_rows_Return aid u plans rows :
  seed_rows aid u plans = Return rows ->
  ∃ items buckets, plans = VDict items
    ∧ Forall2 (fun item ps => seed_bucket aid u item = Return ps) items buckets
    ∧ rows = concat buckets.
Proof.
  unfold seed_rows, mbind, result_bind.
  destruct plans as [| | | | | |items]; try done. cbn.
  destruct (mapM_result _ items) as [buckets|] eqn:Hm; [|done].
  intros [= <-]. exists items, buckets. split; [done|]. split; [|done].
  by apply mapM_result_Return.
Qed.

Lemma seed_rows_is_seed aid u plans rows :
  seed_rows aid u plans = Return rows -> Forall (is_seed aid u) rows.
Proof.
  intros (items & buckets & -> & Hb & ->)%seed_rows_Return.
  apply Forall_concat. induction Hb as [|item ps items buckets Hi _ IH];
    constructor; [|done].
  apply seed_bucket_Return in Hi as (tasks & _ & Ht).
  induction Ht as [|task p tasks ps Hp _ IHt]; constructor; [|done].
  apply seed_task_Return in Hp as (fields & -> & ->). done.
Qed.


(** The loops build the row of every task of every bucket. *)
Lemma seed_rows_member aid u items rows n d tasks i t :
  seed_rows aid u (VDict items) = Return rows ->
  items !! n = Some (d, VList tasks) ->
  tasks !! i = Some (VDict t) ->
  seeded_row aid u d t ∈ rows.
Proof.
  intros (items' & buckets & [= <-] & Hb & ->)%seed_rows_Return Hn Hi.
  destruct (Forall2_lookup_l _ _ _ _ _ Hb Hn) as (ps & Hps & Hi').
  apply seed_bucket_Return in Hi' as (tasks' & [= <-] & Ht). cbn in Ht.
  destruct (Forall2_lookup_l _ _ _ _ _ Ht Hi) as (p & Hp & Hs).
  apply seed_task_Return in Hs as (f & [= <-] & ->).
  apply list_elem_of_lookup_2 in Hps as Hin.
  apply list_elem_of_split in Hin as (b1 & b2 & ->).
  rewrite concat_app, concat_cons, !elem_of_app. right. left.
  by eapply list_elem_of_lookup_2.
Qed.

(** Two tasks of one bucket whose [day] fields agree are seeded under one
    conflict key. *)
Lemma seed_rows_shared_key aid u items rows n d tasks i j t1 t2 :
  seed_rows aid u (VDict items) = Return rows ->
  items !! n = Some (d, VList tasks) ->
  tasks !! i = Some (VDict t1) -> tasks !! j = Some (VDict t2) -> i ≠ j ->
  dict_get t1 "day" = dict_get t2 "day" ->
  Store.key (seeded_row aid u d t1) = Store.key (seeded_row aid u d t2)
  ∧ seeded_row aid u d t1 ∈ rows
  ∧ ¬ NoDup (Store.key <$> rows).
Proof.
  intros (items' & buckets & [= <-] & Hb & ->)%seed_rows_Return Hn Hi Hj Hij Hday.
  assert (Store.key (seeded_row aid u d t1) = Store.key (seeded_row aid u d t2))
    as Hkey by (cbn; by rewrite Hday).
  destruct (Forall2_lookup_l _ _ _ _ _ Hb Hn) as (ps & Hps & Hi').
  apply seed_bucket_Return in Hi' as (tasks' & [= <-] & Ht). cbn in Ht.
  destruct (Forall2_lookup_l _ _ _ _ _ Ht Hi) as (p1 & Hp1 & Hs1).
  destruct (Forall2_lookup_l _ _ _ _ _ Ht Hj) as (p2 & Hp2 & Hs2).
  apply seed_task_Return in Hs1 as (f1 & [= <-] & ->).
  apply seed_task_Return in Hs2 as (f2 & [= <-] & ->).
  apply list_elem_of_lookup_2 in Hps as Hin.
  apply list_elem_of_split in Hin as (b1 & b2 & ->).
  rewrite concat_app, concat_cons. split; [done|]. split.
  - rewrite !elem_of_app. right. left. by eapply list_elem_of_lookup_2.
  - rewrite !fmap_app, !NoDup_app. intros (_ & _ & Hnd & _).
    apply Hij. eapply NoDup_lookup; [exact Hnd| |].
    + by rewrite list_lookup_fmap, Hp1.
    + by rewrite list_lookup_fmap, Hp2, Hkey.
Qed.

End Seeding.

(** ** Facts about dicts and strings *)

Lemma append_empty_r (s : string) : s +:+ EmptyString = s.
Proof.
  induction s as [|a s IH]; [done|].
  change (String a (s +:+ EmptyString) = String a s). by f_equal.
Qed.

Lemma append_assoc (s1 s2 s3 : string) :
  (s1 +:+ s2) +:+ s3 = s1 +:+ s2 +:+ s3.
Proof.
  induction s1 as [|a s1 IH]; [done|].
  change (String a ((s1 +:+ s2) +:+ s3) = String a (s1 +:+ s2 +:+ s3)).
  by f_equal.
Qed.

Section Dicts.
Context `{PyRuntime}.

Lemma dict_get_set_ne d k x k' :
  k' ≠ k -> dict_get (dict_set d k x) k' = dict_get d k'.
Proof.
  intros Hne. induction d as [|[k0 x0] d IH]; cbn.
  - destruct (String.eqb_spec k k'); [congruence|done].
  - destruct (String.eqb_spec k0 k) as [->|]; cbn.
    + destruct (String.eqb_spec k k'); [congruence|done].
    + by rewrite IH.
Qed.

Lemma dict_get_set_eq d k x : dict_get (dict_set d k x) k = Some x.
Proof.
  induction d as [|[k0 x0] d IH]; cbn.
  - by rewrite String.eqb_refl.
  - destruct (String.eqb_spec k0 k) as [->|Hne]; cbn.
    + by rewrite String.eqb_refl.
    + destruct (String.eqb_spec k0 k); [congruence|done].
Qed.

(** Whether a value has the schema does not depend on its [id]. *)
Lemma has_schema_ext v v' :
  (∀ k, k ≠ "id" -> member v' k = member v k) ->
  has_schema v' <-> has_schema v.
Proof.
  intros Hext.
  assert (∀ k, k ∈ schema_keys -> k ≠ "id") as Hid.
  { intros k Hk ->. revert Hk. unfold schema_keys.
    rewrite !elem_of_cons, elem_of_nil. naive_solver. }
  unfold has_schema. rewrite (Hext "preparation_plans") by done.
  split; intros [Hkeys Hplans]; (split; [|done]); intros k Hk.
  - rewrite <-Hext by auto. auto.
  - rewrite Hext by auto. auto.
Qed.

End Dicts.

(** ** The handlers *)

Section Handlers.
Context `{PyRuntime}.

#[local] Arguments analysis_prompt : simpl never.
#[local] Arguments explain_prompt : simpl never.
#[local] Arguments string_of_N : simpl never.
#[local] Arguments FirstDefinition.system_instruction_of : simpl never.
#[local] Arguments FirstDefinition.input_text_of : simpl never.
#[local] Arguments SecondDefinition.persona_of : simpl never.
#[local] Arguments SecondDefinition.entry_lines : simpl never.

Ltac run :=
  unfold mbind, mret, M_bind, M_ret, try_except, lift, raise, get_world,
    with_supabase, with_supabase_statement in *; cbn in *.

Lemma set_supabase_same w s : supabase w = Some s -> set_supabase s w = w.
Proof. destruct w; cbn; by intros ->. Qed.

Lemma get_client_supabase env w r w1 :
  get_client env w = (r, w1) -> supabase w1 = supabase w.
Proof.
  unfold get_client. intros Hc.
  destruct (_client w); [by inversion Hc|].
  destruct (GEMINI_API_KEY env) as [[|a k]|]; by inversion Hc.
Qed.

(** The generation client leaves the persistence handle alone. *)
Lemma analyze_resume_supabase env rt tr ks w r w1 :
  analyze_resume env rt tr ks w = (r, w1) -> supabase w1 = supabase w.
Proof.
  unfold analyze_resume. run. intros Hr.
  destruct (get_client env w) as [[c|e] w0] eqn:Hc.
  - apply get_client_supabase in Hc. unfold models_generate_content, loads in Hr.
    destruct (generate_content env _ _); cbn in Hr.
    + destruct (json_loads env text) as [v|[cls msg]]; run;
        inversion Hr; subst; done.
    + inversion Hr; subst; done.
  - apply get_client_supabase in Hc. inversion Hr; subst; done.
Qed.

(** A call of [analyze] that returns went through the generation step
    without an error marker, and through the persistence step when a
    client is configured. *)
Lemma analyze_Return env req user w r w' :
  analyze env req user w = (Return r, w') ->
  ∃ v w1,
    analyze_resume env (resume_text req) (target_role req) (known_skills req) w
      = (Return v, w1)
    ∧ py_contains "error" v = Return false
    ∧ match supabase w1 with
      | Some _ => analyze_persist env req (uid user) v w1 = (Return r, w')
      | None => r = v ∧ w' = w1
      end.
Proof.
  unfold analyze. run.
  destruct (analyze_resume env _ _ _ w) as [[v|e] w1]; [|by destruct e].
  destruct (py_contains "error" v) as [[|]|e] eqn:Hc; cbn.
  - destruct (py_getitem v "error") as [err|e]; cbn; [|by destruct e].
    destruct (py_getitem v "details") as [det|e]; cbn;
      [by destruct det|by destruct e].
  - intros Hr. exists v, w1. split; [done|]. split; [done|].
    destruct (supabase w1) eqn:Hs.
    + destruct (analyze_persist env req (uid user) v w1) as [[r'|e] w2];
        [by injection Hr as <- <-|by destruct e].
    + by injection Hr as <- <-.
  - by destruct e.
Qed.

Lemma analyze_persist_Return env req u v w s r w' :
  supabase w = Some s ->
  analyze_persist env req u v w = (Return r, w') ->
  ∃ d fields rows,
    let analysis_id := string_of_N (Store.next_id s) in
    v = VDict d
    ∧ analysis_fields_of u req v = Return fields
    ∧ r = VDict (dict_set d "id" (VStr analysis_id))
    ∧ py_get r "preparation_plans" (VDict []) ≫= seed_rows analysis_id u
      = Return rows
    ∧ NoDup (Store.key <$> rows)
    ∧ w' = set_supabase (persisted (now env) fields rows s) w.
Proof.
  intros Hs. unfold analyze_persist. run.
  destruct v as [| | | | | |d]; try done.
  destruct (analysis_fields_of u req (VDict d)) as [fields|] eqn:Hf; [|done].
  rewrite Hs. cbn.
  destruct (seed_rows _ u _) as [rows|] eqn:Hrows; [|done].
  intros Hr. exists d, fields, rows.
  assert (r = VDict (dict_set d "id" (VStr (string_of_N (Store.next_id s))))
          ∧ NoDup (Store.key <$> rows)
          ∧ w' = set_supabase (persisted (now env) fields rows s) w)
    as (-> & Hnd & ->).
  { destruct rows as [|p rows]; cbn in Hr.
    - injection Hr as <- <-. split; [done|]. split; [constructor|done].
    - unfold Store.upsert in Hr.
      destruct (decide (NoDup (Store.key <$> p :: rows))) as [Hnd|]; [|done].
      by injection Hr as <- <-. }
  cbn. by rewrite Hrows.
Qed.

Lemma analysis_fields_of_user u req v fields :
  analysis_fields_of u req v = Return fields -> Store.user_id fields = u.
Proof.
  unfold analysis_fields_of, mbind, result_bind. intros Hf.
  repeat match type of Hf with
         | match ?x with _ => _ end = _ => destruct x; [|done]
         end.
  by injection Hf as <-.
Qed.

Lemma update_progress_Some env data user w s :
  supabase w = Some s ->
  update_progress env data user w
  = (Return {| status := "success";
               data := [(update_key user data, updated_row (now env) data)] |},
     set_supabase (updated_store (now env) user data s) w).
Proof.
  intros Hs. unfold update_progress. run. rewrite Hs. cbn. rewrite Hs.
  unfold Store.upsert. rewrite decide_True by apply NoDup_singleton. cbn.
  unfold Store.upsert_row. cbn. fold (update_key user data).
  fold (updated_row (now env) data). by rewrite lookup_insert_eq.
Qed.

Lemma get_progress_Some a user w s :
  supabase w = Some s ->
  get_progress a user w = (Return (Store.select_progress a (uid user) s), w).
Proof.
  intros Hs. unfold get_progress. run. rewrite Hs. cbn. rewrite Hs.
  by rewrite (set_supabase_same _ _ Hs).
Qed.

(** The second definition extends the context by the lines of the
    entries, oldest first. *)
Lemma extend_context_lines ctx history lines :
  mapM_result SecondDefinition.entry_lines history = Return lines ->
  SecondDefinition.extend_context ctx history
  = Return (ctx +:+ foldr String.append EmptyString lines).
Proof.
  revert ctx lines. induction history as [|entry history IH];
    intros ctx lines Hl; cbn in Hl |- *.
  - injection Hl as <-. cbn. by rewrite append_empty_r.
  - unfold mbind, result_bind in Hl |- *.
    destruct (SecondDefinition.entry_lines entry) as [l|]; cbn in Hl |- *;
      [|done].
    destruct (mapM_result _ history) as [ls|] eqn:Hls; cbn in Hl; [|done].
    injection Hl as <-. rewrite (IH _ ls) by done.
    cbn. by rewrite append_assoc.
Qed.

(** X19.  The second definition of [mock_interview] sends the role, then the
    question and answer of every earlier turn in the order of the history,
    then the latest answer. *)
Lemma second_definition_linearizes_history env req user w c w0 lines :
  get_client env w = (Return c, w0) ->
  mapM_result SecondDefinition.entry_lines (SecondDefinition.history req)
    = Return lines ->
  sent (SecondDefinition.mock_interview env req user w).2
  = (sent w0
     ++ [ {| model := MODEL;
             contents :=
               ("Target Role: " +:+ SecondDefinition.target_role req +:+ LF
                +:+ foldr String.append EmptyString lines)
               +:+ "Candidate's latest response: "
               +:+ SecondDefinition.last_answer req;
             config := SystemInstruction (SecondDefinition.persona_of req) |} ])%list.
Proof.
  intros Hc Hl. unfold SecondDefinition.mock_interview. run. rewrite Hc. cbn.
  unfold SecondDefinition.chat_context_of.
  rewrite (extend_context_lines _ _ _ Hl). cbn.
  unfold models_generate_content. cbn.
  rewrite <-!append_assoc.
  by destruct (generate_content env _ _).
Qed.

(** [delete_record] has no guard: without a persistence client the call
    on [State.supabase] raises and nothing in the handler catches it. *)
Lemma delete_record_without_client record_id user w :
  supabase w = None ->
  delete_record record_id user w = (Raise supabase_is_None, w).
Proof. intros Hoff. unfold delete_record. run. by rewrite Hoff. Qed.

(** *** Analyze: what is returned *)

(** C1, as amended.  For every valid request on which [analyze] returns,
    the returned object is the object the generation step produced, with
    the key [id] set when a persistence client is configured: every other
    key is bound in the response exactly as in the generated object, so the
    response has the seven schema keys and the three plan buckets exactly
    when the generated object has them. *)
Theorem analyze_returns_generated_object env req user w r w' :
  valid_AnalyzeRequest req ->
  analyze env req user w = (Return r, w') ->
  ∃ v w1,
    analyze_resume env (resume_text req) (target_role req) (known_skills req) w
      = (Return v, w1)
    ∧ (supabase w = None -> r = v)
    ∧ (∀ s, supabase w = Some s ->
         member r "id" = Some (VStr (string_of_N (Store.next_id s))))
    ∧ (∀ k, k ≠ "id" -> member r k = member v k)
    ∧ (has_schema r <-> has_schema v).
Proof.
  intros _ (v & w1 & Hgen & _ & Hcases)%analyze_Return.
  exists v, w1. split; [done|].
  pose proof (analyze_resume_supabase _ _ _ _ _ _ _ Hgen) as Hsup.
  destruct (supabase w1) as [s|] eqn:Hs; rewrite <-Hsup.
  - apply (analyze_persist_Return _ _ _ _ _ _ _ _ Hs) in Hcases
      as (d & fields & rows & -> & _ & -> & _ & _ & _).
    assert (∀ k, k ≠ "id" ->
              member (VDict (dict_set d "id"
                               (VStr (string_of_N (Store.next_id s))))) k
              = member (VDict d) k) as Hext
      by (intros k Hk; by apply dict_get_set_ne).
    split; [done|]. split.
    { intros s' [= <-]. apply dict_get_set_eq. }
    split; [done|]. by apply has_schema_ext.
  - destruct Hcases as [-> ->]. split; [done|]. split; [done|]. done.
Qed.

(** *** Analyze: generation errors *)

Lemma analyze_resume_provider_failure env req w c w0 cls msg :
  get_client env w = (Return c, w0) ->
  generate_content env (length (sent w0)) (analysis_request req)
    = Failed cls msg ->
  analyze_resume env (resume_text req) (target_role req) (known_skills req) w
  = (Return (error_result msg), log_request (analysis_request req) w0).
Proof.
  intros Hc Hg. unfold analyze_resume, models_generate_content. run.
  rewrite Hc. cbn. fold (analysis_request req). by rewrite Hg.
Qed.

(** C2.  Whenever the structured mode produces its error result, whatever
    the text [msg] of the provider's exception, [analyze] answers 503 with
    that text as detail: the marker is looked for in the [error] field,
    which always holds the fixed text, not in [details]. *)
Theorem analyze_error_result_status env req user w w1 msg :
  analyze_resume env (resume_text req) (target_role req) (known_skills req) w
    = (Return (error_result msg), w1) ->
  analyze env req user w = (Raise (HTTPException 503 (VStr msg)), w1).
Proof.
  intros Hr. unfold analyze. run. rewrite Hr. cbn. reflexivity.
Qed.

(** *** The interview *)

(** C3.  The request the serving definition of [mock_interview] hands to
    the provider carries the latest answer alone (or the opening line when
    there is none): the messages built from the history are not passed on. *)
Theorem mock_interview_sends_latest_answer_only env req user w c w0 messages :
  get_client env w = (Return c, w0) ->
  FirstDefinition.messages_of (FirstDefinition.system_instruction_of req)
    (FirstDefinition.history req) = Return messages ->
  sent (route_mock_interview env req user w).2
  = (sent w0 ++ [first_request req])%list
  ∧ contents (first_request req)
    = match FirstDefinition.last_answer req with
      | EmptyString => "Let's start the interview."
      | answer => answer
      end.
Proof.
  intros Hc Hm. split; [|done].
  unfold route_mock_interview, FirstDefinition.mock_interview. run.
  rewrite Hc. cbn. rewrite Hm. cbn. unfold models_generate_content.
  fold (first_request req).
  by destruct (generate_content env (length (sent w0)) (first_request req)).
Qed.

(** *** Without a persistence client *)

(** C4, as amended.  When no persistence client is configured,
    [get_progress] and [get_records] return the empty sequence,
    [update_progress] answers 500 "Supabase offline", and [analyze] skips
    its persistence step and returns the generated object. *)
Theorem persistence_absent env w :
  supabase w = None ->
  (∀ a user, get_progress a user w = (Return [], w))
  ∧ (∀ user, get_records user w = (Return [], w))
  ∧ (∀ data user,
       update_progress env data user w
       = (Raise (HTTPException 500 (VStr "Supabase offline")), w))
  ∧ (∀ req user v w1,
       analyze_resume env (resume_text req) (target_role req)
         (known_skills req) w = (Return v, w1) ->
       py_contains "error" v = Return false ->
       analyze env req user w = (Return v, w1) ∧ supabase w1 = None).
Proof.
  intros Hoff. split; [|split; [|split]].
  - intros a user. unfold get_progress. run. by rewrite Hoff.
  - intros user. unfold get_records. run. by rewrite Hoff.
  - intros data user. unfold update_progress. run. by rewrite Hoff.
  - intros req user v w1 Hgen Hclean.
    pose proof (analyze_resume_supabase _ _ _ _ _ _ _ Hgen) as Hsup.
    rewrite Hoff in Hsup. split; [|done].
    unfold analyze. run. rewrite Hgen. cbn. rewrite Hclean. cbn.
    by rewrite Hsup.
Qed.

(** *** Progress updates *)

(** C5, as amended.  Of two updates for one composite key the later
    wins: the key then holds exactly one row, with the later submission's
    completion flag and score and the time of the later write; other keys
    and the analyses are as before; the state is the one the later
    submission alone would leave.  A repeat of the same submission leaves
    the state unchanged when the database clock has not moved, and
    otherwise changes [updated_at] of that row only. *)
Theorem update_progress_last_write_wins env1 env2 d1 d2 user w s :
  supabase w = Some s ->
  update_key user d1 = update_key user d2 ->
  let w1 := (update_progress env1 d1 user w).2 in
  let w2 := (update_progress env2 d2 user w1).2 in
  ∃ s2,
    supabase w2 = Some s2
    ∧ rows_at (update_key user d2) (Store.roadmap_progress s2)
      = [(update_key user d2, updated_row (now env2) d2)]
    ∧ (∀ k, k ≠ update_key user d2 ->
         Store.roadmap_progress s2 !! k = Store.roadmap_progress s !! k)
    ∧ Store.analyses s2 = Store.analyses s
    ∧ w2 = (update_progress env2 d2 user w).2
    ∧ (d1 = d2 -> now env1 = now env2 -> w2 = w1).
Proof.
  intros Hs Hkey w1 w2. subst w1 w2.
  rewrite (update_progress_Some env1 d1 user w s Hs). cbn [snd].
  rewrite (update_progress_Some env2 d2 user _
             (updated_store (now env1) user d1 s)) by done.
  rewrite (update_progress_Some env2 d2 user w s Hs). cbn [snd].
  assert (updated_store (now env2) user d2 (updated_store (now env1) user d1 s)
          = updated_store (now env2) user d2 s) as Hover.
  { unfold updated_store. cbn. by rewrite Hkey, insert_insert_eq. }
  exists (updated_store (now env2) user d2 s). rewrite Hover.
  split; [done|]. split; [|split; [|split; [|split]]].
  - apply rows_at_Some. cbn. by rewrite lookup_insert_eq.
  - intros k Hk. cbn. by rewrite lookup_insert_ne.
  - done.
  - done.
  - intros -> ->. done.
Qed.

(** *** Scoping by the caller *)

(** C6.  With a persistence client, [get_progress] returns exactly the
    stored rows of the requested analysis whose user id is the caller's,
    [get_records] exactly the caller's analyses, and [delete_record]
    removes exactly the analyses that carry both the given id and the
    caller's user id, leaving every other row in place. *)
Theorem reads_and_deletes_are_scoped w s user :
  supabase w = Some s ->
  (∀ a, ∃ rows,
      get_progress a user w = (Return rows, w)
      ∧ ∀ k r, (k, r) ∈ rows <->
          Store.roadmap_progress s !! k = Some r
          ∧ Store.key_analysis_id k = a ∧ Store.key_user_id k = uid user)
  ∧ (∃ rows,
      get_records user w = (Return rows, w)
      ∧ ∀ r, r ∈ rows <->
          r ∈ Store.analyses s ∧ Store.user_id (Store.fields r) = uid user)
  ∧ (∀ i, ∃ s',
      delete_record i user w = (Return "success", set_supabase s' w)
      ∧ Store.roadmap_progress s' = Store.roadmap_progress s
      ∧ ∀ r, r ∈ Store.analyses s' <->
          r ∈ Store.analyses s
          ∧ ¬ (Store.id r = i ∧ Store.user_id (Store.fields r) = uid user)).
Proof.
  intros Hs. split; [|split].
  - intros a. eexists. split.
    + unfold get_progress. run. rewrite Hs. cbn. rewrite Hs.
      by rewrite (set_supabase_same _ _ Hs).
    + intros k r. unfold Store.select_progress.
      rewrite list_elem_of_filter, elem_of_map_to_list. cbn. tauto.
  - eexists. split.
    + unfold get_records. run. rewrite Hs. cbn. rewrite Hs.
      by rewrite (set_supabase_same _ _ Hs).
    + intros r. unfold Store.select_analyses.
      rewrite list_elem_of_filter. tauto.
  - intros i. eexists. split; [|split].
    + unfold delete_record. run. rewrite Hs. reflexivity.
    + reflexivity.
    + intros r. cbn. rewrite list_elem_of_filter. tauto.
Qed.

(** *** Seeding *)


(** *** References from progress rows to analyses *)

(** C8, as amended.  Every progress row a returning call of [analyze]
    creates or changes references the analysis row that call inserted and
    carries its user id, the caller's; [update_progress] writes one row,
    under the caller's user id and the analysis id the caller supplied,
    and does not look that id up among the analyses. *)
Theorem progress_writes_carry_caller env user w s :
  supabase w = Some s ->
  (∀ req r w',
     analyze env req user w = (Return r, w') ->
     ∃ s' a,
       supabase w' = Some s'
       ∧ Store.analyses s' = a :: Store.analyses s
       ∧ Store.user_id (Store.fields a) = uid user
       ∧ ∀ k, Store.roadmap_progress s' !! k ≠ Store.roadmap_progress s !! k ->
           references_analysis s' k
           ∧ Store.key_analysis_id k = Store.id a
           ∧ Store.key_user_id k = uid user)
  ∧ (∀ data, ∃ res s',
       update_progress env data user w = (Return res, set_supabase s' w)
       ∧ Store.analyses s' = Store.analyses s
       ∧ Store.roadmap_progress s' !! update_key user data
         = Some (updated_row (now env) data)
       ∧ ∀ k, Store.roadmap_progress s' !! k ≠ Store.roadmap_progress s !! k ->
           k = (uid user, analysis_id data, day_label data, duration_type data)).
Proof.
  intros Hs. split.
  - intros req r w' (v & w1 & Hgen & _ & Hcases)%analyze_Return.
    pose proof (analyze_resume_supabase _ _ _ _ _ _ _ Hgen) as Hsup.
    rewrite Hsup, Hs in Hcases. rewrite <-Hsup in Hs.
    apply (analyze_persist_Return _ _ _ _ _ _ _ _ Hs) in Hcases
      as (d & fields & rows & -> & Hf & -> & Hrows & _ & ->).
    cbn in Hrows. apply seed_rows_is_seed in Hrows as Hseed.
    apply analysis_fields_of_user in Hf as Hu.
    eexists _, _. split; [done|]. split; [done|].
    split; [done|]. intros k Hk. cbn in Hk.
    destruct (decide (k ∈ Store.key <$> rows)) as [Hin|Hout];
      [|by rewrite upsert_rows_lookup_notin in Hk].
    apply list_elem_of_fmap in Hin as (p & -> & Hp).
    rewrite Forall_forall in Hseed. destruct (Hseed p Hp) as (Hpu & Hpa & _).
    split; [|done]. eexists. split; [apply list_elem_of_here|]. cbn.
    by rewrite Hpu, Hpa.
  - intros data. eexists _, _. split; [by apply update_progress_Some|].
    split; [done|]. split; [cbn; by rewrite lookup_insert_eq|].
    intros k Hk. cbn in Hk.
    destruct (decide (k = update_key user data)) as [->|Hne]; [done|].
    by rewrite lookup_insert_ne in Hk.
Qed.

(** *** The mentor *)

(** C9.  [explain_task] always returns, so it answers 200: when the
    generation call succeeds the explanation is the text of the model's
    response (null when the response carries no text), and it is the fixed
    fallback explanation when the call raises or no client can be made for
    want of the key. *)
Theorem explain_task_never_fails env req user w :
  (∃ body w', explain_task env req user w = (Return body, w'))
  ∧ http_status (explain_task env req user w).1 = Some 200%Z
  ∧ (∀ c w0 t,
       get_client env w = (Return c, w0) ->
       generate_content env (length (sent w0)) (explain_request req)
         = Responded (Some t) ->
       (explain_task env req user w).1
       = Return (VDict [("explanation", VStr t)]))
  ∧ (∀ c w0,
       get_client env w = (Return c, w0) ->
       generate_content env (length (sent w0)) (explain_request req)
         = Responded None ->
       (explain_task env req user w).1
       = Return (VDict [("explanation", VNone)]))
  ∧ (∀ c w0 cls msg,
       get_client env w = (Return c, w0) ->
       generate_content env (length (sent w0)) (explain_request req)
         = Failed cls msg ->
       (explain_task env req user w).1
       = Return (VDict
           [("explanation",
             VStr "Neural Link offline. The AI Mentor is currently recalibrating.")]))
  ∧ (∀ e w0,
       get_client env w = (Raise e, w0) ->
       (explain_task env req user w).1
       = Return (VDict
           [("explanation",
             VStr "Neural Link offline. The AI Mentor is currently recalibrating.")])).
Proof.
  unfold explain_task, models_generate_content. run.
  fold (explain_request req).
  destruct (get_client env w) as [[c|e] w0] eqn:Hc.
  - destruct (generate_content env (length (sent w0)) (explain_request req))
      as [text|cls msg] eqn:Hg; cbn.
    + split; [by eexists _, _|]. repeat split; try done.
      * intros c' w0' t [= <- <-]. rewrite Hg. by intros [= ->].
      * intros c' w0' [= <- <-]. rewrite Hg. by intros [= ->].
      * intros c' w0' cls msg [= <- <-]. rewrite Hg. done.
    + split; [by eexists _, _|]. repeat split; try done.
      * intros c' w0' t [= <- <-]. rewrite Hg. done.
      * intros c' w0' [= <- <-]. rewrite Hg. done.
  - cbn. split; [by eexists _, _|]. repeat split; try done.
Qed.

End Handlers.

(** ** Further properties of the handlers *)

Section FurtherProperties.
Context `{PyRuntime}.

#[local] Arguments analysis_prompt : simpl never.
#[local] Arguments explain_prompt : simpl never.
#[local] Arguments string_of_N : simpl never.
#[local] Arguments analysis_fields_of : simpl never.
#[local] Arguments seed_rows : simpl never.

Ltac run :=
  unfold mbind, mret, M_bind, M_ret, try_except, lift, raise, get_world,
    with_supabase, with_supabase_statement in *; cbn in *.

Lemma py_contains_raises k v e : py_contains k v = Raise e -> is_py_error e.
Proof. destruct v; cbn; intros [= <-] || intros [=]; done. Qed.
Lemma py_getitem_raises v k e : py_getitem v k = Raise e -> is_py_error e.
Proof.
  destruct v; cbn; try (intros [= <-]; done).
  destruct (dict_get d k); intros [= <-] || intros [=]; done.
Qed.
Lemma py_get_raises v k dflt e : py_get v k dflt = Raise e -> is_py_error e.
Proof. destruct v; cbn; intros [= <-] || intros [=]; done. Qed.
Lemma py_items_raises v e : py_items v = Raise e -> is_py_error e.
Proof. destruct v; cbn; intros [= <-] || intros [=]; done. Qed.
Lemma py_iter_raises v e : py_iter v = Raise e -> is_py_error e.
Proof. destruct v; cbn; intros [= <-] || intros [=]; done. Qed.
Lemma py_setitem_raises v k x e : py_setitem v k x = Raise e -> is_py_error e.
Proof. destruct v; cbn; intros [= <-] || intros [=]; done. Qed.
Lemma py_int_raises v e : py_int v = Raise e -> is_py_error e.
Proof.
  destruct v; cbn; try (intros [= <-] || intros [=]; done).
  - destruct (float_int x); intros [= <-] || intros [=]; done.
  - destruct (str_int s); intros [= <-] || intros [=]; done.
Qed.

Lemma mapM_result_raises {A B} (f : A -> result B) l e :
  (∀ x e', f x = Raise e' -> is_py_error e') ->
  mapM_result f l = Raise e -> is_py_error e.
Proof.
  intros Hf. induction l as [|x l IH]; cbn; [done|].
  unfold mbind, result_bind. destruct (f x) eqn:Hx.
  - destruct (mapM_result f l); [done|]. intros [= <-]. by apply IH.
  - intros [= <-]. by eapply Hf.
Qed.

Lemma seed_rows_raises aid u plans e :
  seed_rows aid u plans = Raise e -> is_py_error e.
Proof.
  unfold seed_rows, mbind, result_bind.
  destruct (py_items plans) as [items|e0] eqn:Hi;
    [|intros [= <-]; by eapply py_items_raises].
  destruct (mapM_result _ items) eqn:Hm; [done|]. intros [= <-].
  eapply mapM_result_raises; [|exact Hm]. intros item e'.
  unfold seed_bucket, mbind, result_bind.
  destruct (py_iter item.2) as [tasks|e1] eqn:Ht;
    [|intros [= <-]; by eapply py_iter_raises].
  apply mapM_result_raises. intros task e''. unfold seed_task, mbind, result_bind.
  destruct (py_get task "day" VNone) eqn:Hg; [done|].
  intros [= <-]. by eapply py_get_raises.
Qed.

Lemma analysis_fields_of_raises u req v e :
  analysis_fields_of u req v = Raise e -> is_py_error e.
Proof.
  unfold analysis_fields_of, mbind, result_bind. intros Hf.
  repeat match type of Hf with
         | match ?x with _ => _ end = _ =>
             let Hx := fresh "Hx" in
             destruct x eqn:Hx;
             [|injection Hf as <-;
               first [by eapply py_get_raises|by eapply py_int_raises]]
         end.
  done.
Qed.


(** *** The generation client *)

Lemma get_client_cases env w :
  (∃ c, _client w = Some c ∧ get_client env w = (Return c, w))
  ∨ (_client w = None ∧ truthy (GEMINI_API_KEY env) = false
     ∧ get_client env w = (Raise missing_key_error, w))
  ∨ (∃ k, _client w = None ∧ GEMINI_API_KEY env = Some k
     ∧ truthy (GEMINI_API_KEY env) = true
     ∧ get_client env w
       = (Return {| api_key := k |}, set_client {| api_key := k |} w)).
Proof.
  unfold get_client. destruct (_client w) as [c|]; [left; eauto|right].
  destruct (GEMINI_API_KEY env) as [[|a k]|]; cbn; [by left| |by left].
  right. eexists. done.
Qed.

Lemma get_client_Return env w c w0 :
  get_client env w = (Return c, w0) ->
  _client w0 = Some c ∧ supabase w0 = supabase w ∧ sent w0 = sent w.
Proof.
  destruct (get_client_cases env w)
    as [(c' & Hc & ->)|[(_ & _ & ->)|(k & _ & _ & _ & ->)]];
    intros [= <- <-]; done.
Qed.

Lemma get_client_Raise env w e w0 :
  get_client env w = (Raise e, w0) ->
  e = missing_key_error ∧ w0 = w ∧ _client w = None
  ∧ truthy (GEMINI_API_KEY env) = false.
Proof.
  destruct (get_client_cases env w)
    as [(c' & Hc & ->)|[(Hn & Hk & ->)|(k & _ & _ & _ & ->)]];
    intros [= <- <-]; done.
Qed.

Lemma analyze_resume_with_client env req w c w0 :
  get_client env w = (Return c, w0) ->
  analyze_resume env (resume_text req) (target_role req) (known_skills req) w
  = (Return (generated env (length (sent w0)) (analysis_request req)),
     log_request (analysis_request req) w0).
Proof.
  intros Hc. unfold analyze_resume, models_generate_content, loads, generated.
  run. rewrite Hc. cbn. fold (analysis_request req).
  destruct (generate_content env _ _) as [text|cls msg]; cbn; [|done].
  by destruct (json_loads env text) as [v|[cls msg]].
Qed.

Lemma analyze_resume_without_client env req w e w0 :
  get_client env w = (Raise e, w0) ->
  analyze_resume env (resume_text req) (target_role req) (known_skills req) w
  = (Raise missing_key_error, w).
Proof.
  intros Hc. destruct (get_client_Raise _ _ _ _ Hc) as (-> & -> & _).
  unfold analyze_resume. run. by rewrite Hc.
Qed.

(** *** analyze, branch by branch *)

Lemma persisted_nil now fields s :
  Store.roadmap_progress (persisted now fields [] s) = Store.roadmap_progress s.
Proof. done. Qed.

Lemma analyze_after_generation env req user w v w1 :
  analyze_resume env (resume_text req) (target_role req) (known_skills req) w
    = (Return v, w1) ->
  analyze env req user w = analyze_outcome env req user v w1.
Proof.
  intros Hgen. unfold analyze, analyze_outcome. run. rewrite Hgen. cbn.
  destruct (py_contains "error" v) as [[|]|e] eqn:Hc; cbn.
  - destruct (py_getitem v "error") as [err|e] eqn:He; cbn.
    + destruct (py_getitem v "details") as [det|e] eqn:Hd; cbn;
        [by destruct det|].
      apply py_getitem_raises in Hd. by destruct e.
    + apply py_getitem_raises in He. by destruct e.
  - destruct (supabase w1) as [s|] eqn:Hs; [|done].
    unfold persist_outcome, analyze_persist. run.
    destruct (analysis_fields_of (uid user) req v) as [fields|e] eqn:Hf; cbn.
    2:{ apply analysis_fields_of_raises in Hf. by destruct e. }
    rewrite Hs. cbn.
    destruct (py_setitem v "id" _) as [r|e] eqn:Hset; cbn.
    2:{ apply py_setitem_raises in Hset. by destruct e. }
    destruct (py_get r "preparation_plans" (VDict [])) as [plans|e] eqn:Hp; cbn.
    2:{ apply py_get_raises in Hp. by destruct e. }
    destruct (seed_rows _ (uid user) plans) as [rows|e] eqn:Hrows; cbn.
    2:{ apply seed_rows_raises in Hrows. by destruct e. }
    destruct rows as [|p rows]; cbn.
    + match goal with
      | |- context [decide ?P] => destruct (decide P) as [_|Hn]
      end; [done|]. destruct Hn. constructor.
    + unfold Store.upsert.
      repeat match goal with
             | |- context [decide ?P] => destruct (decide P)
             end; first [done|exfalso; auto].
  - apply py_contains_raises in Hc. by destruct e.
Qed.

Lemma analyze_without_client env req user w e w0 :
  get_client env w = (Raise e, w0) ->
  analyze env req user w = (Raise internal_error, w).
Proof.
  intros Hc. unfold analyze. run.
  by rewrite (analyze_resume_without_client _ _ _ _ _ Hc).
Qed.

(** X1.  Whatever the provider and the parser do and whatever value is
    generated, with the store as modelled (an outage of the persistence
    service is outside the model), [analyze] answers 200, 429, 503 or 500:
    no exception raised in the handler, by the generation client, by the
    operations on the generated value, by the seeding loops or by a refused
    upsert, leaves it other than as an [HTTPException]. *)
Theorem analyze_status_codes env req user w :
  http_status (analyze env req user w).1
  ∈ [Some 200%Z; Some 429%Z; Some 503%Z; Some 500%Z].
Proof.
  destruct (get_client env w) as [[c|e] w0] eqn:Hc.
  2:{ rewrite (analyze_without_client _ _ _ _ _ _ Hc). cbn. set_solver. }
  rewrite (analyze_after_generation _ _ _ _ _ _
             (analyze_resume_with_client _ req _ _ _ Hc)).
  unfold analyze_outcome, persist_outcome, new_HTTPException.
  repeat match goal with
         | |- context [match ?x with _ => _ end] => destruct x
         end; cbn; set_solver.
Qed.

Lemma analyze_outcome_429 env req user v w detail w' :
  analyze_outcome env req user v w = (Raise (HTTPException 429 detail), w')
  <-> ∃ d err details, v = VDict d ∧ dict_get d "error" = Some err
        ∧ str_contains "429" (py_str err) = true
        ∧ dict_get d "details" = Some details
        ∧ detail = match details with
                   | VNone => VStr "Too Many Requests"
                   | _ => details
                   end
        ∧ w' = w.
Proof.
  unfold analyze_outcome, persist_outcome. split.
  - destruct v as [| | | |s|l|d]; cbn; try done.
    + destruct (str_contains "error" s); cbn; [done|].
      destruct (supabase w); [|done].
      by repeat match goal with
                | |- context [match ?x with _ => _ end] => destruct x
                end.
    + destruct (existsb _ l); cbn; [done|].
      destruct (supabase w); [|done].
      by repeat match goal with
                | |- context [match ?x with _ => _ end] => destruct x
                end.
    + destruct (dict_get d "error") as [err|] eqn:Herr.
      * rewrite bool_decide_eq_true_2 by (by eexists). cbn.
        destruct (dict_get d "details") as [det|] eqn:Hdet; cbn; [|done].
        destruct (str_contains "429" (py_str err)) eqn:H429;
          destruct det; cbn; intros Heq; inversion Heq; subst;
          eexists d, err, _; done.
      * rewrite bool_decide_eq_false_2 by (by intros [? ?]).
        destruct (supabase w); [|done].
        by repeat match goal with
                  | |- context [match ?x with _ => _ end] => destruct x
                  end.
  - intros (d & err & details & -> & Herr & H429 & Hdet & -> & ->). cbn.
    rewrite bool_decide_eq_true_2 by (by rewrite Herr). cbn.
    rewrite Herr, Hdet, H429. by destruct details.
Qed.

(** X2.  [analyze] answers 429 exactly when the provider responded and
    the object parsed from its text itself has an [error] entry whose text
    contains 429 and a [details] entry; the detail of the answer is that
    entry, or "Too Many Requests" when the entry is null; the request was
    then sent and nothing was persisted. *)
Theorem analyze_answers_429_iff env req user w detail w' :
  analyze env req user w = (Raise (HTTPException 429 detail), w')
  <-> ∃ c w0 text d err details,
        get_client env w = (Return c, w0)
        ∧ generate_content env (length (sent w0)) (analysis_request req)
          = Responded text
        ∧ json_loads env text = inl (VDict d)
        ∧ dict_get d "error" = Some err
        ∧ str_contains "429" (py_str err) = true
        ∧ dict_get d "details" = Some details
        ∧ detail = match details with
                   | VNone => VStr "Too Many Requests"
                   | _ => details
                   end
        ∧ w' = log_request (analysis_request req) w0.
Proof.
  destruct (get_client env w) as [[c|e] w0] eqn:Hc.
  2:{ rewrite (analyze_without_client _ _ _ _ _ _ Hc). split; [done|].
      by intros (? & ? & ? & ? & ? & ? & ? & _). }
  rewrite (analyze_after_generation _ _ _ _ _ _
             (analyze_resume_with_client _ req _ _ _ Hc)).
  rewrite analyze_outcome_429. unfold generated. split.
  - intros (d & err & details & Hv & Herr & H429 & Hdet & -> & ->).
    destruct (generate_content env _ _) as [text|cls msg] eqn:Hg.
    + destruct (json_loads env text) as [v|[cls msg]] eqn:Hj.
      * subst v. exists c, w0, text, d, err, details. done.
      * injection Hv as <-. cbn in Herr. injection Herr as <-. done.
    + injection Hv as <-. cbn in Herr. injection Herr as <-. done.
  - intros (c' & w0' & text & d & err & details & [= <- <-] & Hg & Hj & Herr
            & H429 & Hdet & -> & ->).
    rewrite Hg, Hj. by exists d, err, details.
Qed.

(** X3.  Without a cached client and without GEMINI_API_KEY (unset or
    empty), [analyze] answers 500 "Internal processing error." and leaves
    the state as it was: no request is sent and nothing is persisted. *)
Theorem analyze_without_api_key env req user w :
  _client w = None ->
  GEMINI_API_KEY env = None ∨ GEMINI_API_KEY env = Some EmptyString ->
  analyze env req user w
  = (Raise (HTTPException 500 (VStr "Internal processing error.")), w).
Proof.
  intros Hn Hk. eapply analyze_without_client with (e := missing_key_error).
  unfold get_client. rewrite Hn. by destruct Hk as [-> | ->].
Qed.

(** X4.  When the generated value is a number, a boolean or null, a list
    or text containing "error", or an object with an [error] entry and no
    [details], [analyze] answers 500 "Internal processing error." and
    persists nothing. *)
Theorem analyze_rejects_malformed_generation env req user w v w1 :
  analyze_resume env (resume_text req) (target_role req) (known_skills req) w
    = (Return v, w1) ->
  malformed_generation v ->
  analyze env req user w
  = (Raise (HTTPException 500 (VStr "Internal processing error.")), w1).
Proof.
  intros Hgen Hbad. rewrite (analyze_after_generation _ _ _ _ _ _ Hgen).
  unfold analyze_outcome. destruct v as [| | | | | |d]; cbn in *; try done.
  - by rewrite Hbad.
  - by rewrite Hbad.
  - destruct Hbad as [[err Herr] Hdet].
    rewrite bool_decide_eq_true_2 by (by rewrite Herr). cbn.
    by rewrite Herr, Hdet.
Qed.

(** X5.  When the analysis row can be built but the plans cannot be
    seeded (the loops raise), [analyze] answers 500 "Internal processing
    error." and the analysis row it inserted stays in the store, with no
    progress row written. *)
Theorem analyze_seeding_failure_keeps_analysis env req user w w1 s d fields e :
  analyze_resume env (resume_text req) (target_role req) (known_skills req) w
    = (Return (VDict d), w1) ->
  supabase w = Some s ->
  dict_get d "error" = None ->
  analysis_fields_of (uid user) req (VDict d) = Return fields ->
  seed_rows (string_of_N (Store.next_id s)) (uid user)
    (default (VDict []) (dict_get d "preparation_plans")) = Raise e ->
  ∃ s',
    analyze env req user w
    = (Raise (HTTPException 500 (VStr "Internal processing error.")),
       set_supabase s' w1)
    ∧ Store.analyses s'
      = {| Store.id := string_of_N (Store.next_id s); Store.fields := fields |}
          :: Store.analyses s
    ∧ Store.roadmap_progress s' = Store.roadmap_progress s.
Proof.
  intros Hgen Hs Hclean Hf Hseed.
  exists (persisted (now env) fields [] s). split; [|done].
  rewrite (analyze_after_generation _ _ _ _ _ _ Hgen).
  rewrite <-(analyze_resume_supabase _ _ _ _ _ _ _ Hgen) in Hs.
  unfold analyze_outcome, persist_outcome. cbn.
  rewrite bool_decide_eq_false_2 by (rewrite Hclean; by intros [? ?]).
  rewrite Hs, Hf. cbn. rewrite dict_get_set_ne by done. by rewrite Hseed.
Qed.

(** X6.  When the row for [analyses] cannot be built (a
    [readiness_score] that [int] rejects), [analyze] answers 500 and the
    store is as before. *)
Theorem analyze_unbuildable_row_persists_nothing env req user w w1 v e :
  analyze_resume env (resume_text req) (target_role req) (known_skills req) w
    = (Return v, w1) ->
  py_contains "error" v = Return false ->
  is_Some (supabase w) ->
  analysis_fields_of (uid user) req v = Raise e ->
  analyze env req user w
  = (Raise (HTTPException 500 (VStr "Internal processing error.")), w1)
  ∧ supabase w1 = supabase w.
Proof.
  intros Hgen Hclean [s Hs] Hf.
  pose proof (analyze_resume_supabase _ _ _ _ _ _ _ Hgen) as Hsup.
  split; [|done]. rewrite (analyze_after_generation _ _ _ _ _ _ Hgen).
  unfold analyze_outcome, persist_outcome. by rewrite Hclean, Hsup, Hs, Hf.
Qed.

(** X7.  A generated object without [error], [readiness_score] and
    [preparation_plans] is accepted with a persistence client: [analyze]
    returns it with its [id], stores a row whose missing fields are the
    defaults (empty sequences, 0, empty mappings) and seeds no progress
    row. *)
Theorem analyze_tolerates_missing_keys env req user w w1 s d :
  analyze_resume env (resume_text req) (target_role req) (known_skills req) w
    = (Return (VDict d), w1) ->
  supabase w = Some s ->
  dict_get d "error" = None ->
  dict_get d "readiness_score" = None ->
  dict_get d "preparation_plans" = None ->
  ∃ s',
    analyze env req user w
    = (Return (VDict (dict_set d "id" (VStr (string_of_N (Store.next_id s))))),
       set_supabase s' w1)
    ∧ Store.roadmap_progress s' = Store.roadmap_progress s
    ∧ Store.analyses s'
      = {| Store.id := string_of_N (Store.next_id s);
           Store.fields :=
             {| Store.user_id := uid user;
                Store.target_role := target_role req;
                Store.eligible_roles :=
                  default (VList []) (dict_get d "eligible_roles");
                Store.readiness_score := 0;
                Store.skills := default (VList []) (dict_get d "skills");
                Store.required_skills :=
                  default (VList []) (dict_get d "required_skills");
                Store.missing_skills :=
                  default (VList []) (dict_get d "missing_skills");
                Store.salary_tiers :=
                  default (VDict []) (dict_get d "salary_tiers");
                Store.preparation_plans := VDict [] |} |}
          :: Store.analyses s.
Proof.
  intros Hgen Hs Hclean Hscore Hplans.
  rewrite (analyze_after_generation _ _ _ _ _ _ Hgen).
  rewrite <-(analyze_resume_supabase _ _ _ _ _ _ _ Hgen) in Hs.
  unfold analyze_outcome, persist_outcome, analysis_fields_of. cbn.
  rewrite bool_decide_eq_false_2 by (rewrite Hclean; by intros [? ?]).
  rewrite Hs, Hscore, Hplans. cbn.
  rewrite dict_get_set_ne, Hplans by done. cbn.
  eexists. split; [reflexivity|]. done.
Qed.

(** *** Day labels *)

(** C10, as amended.  A seeded row's day label is [str] of the task's
    [day] field, so a task without one is seeded under "None": on a call of
    [analyze] that returns, every task of every bucket has its row, not
    completed and with score 5, under the caller's user id, the new
    analysis id, that label and the duration.  Two tasks of one duration
    whose [day] fields are equal, or both absent, get one label and so one
    conflict key; the bulk upsert refuses a batch that names a key twice,
    so [analyze] then answers 500 "Internal processing error." and leaves
    the progress table as it was: the two tasks are not collapsed into one
    row. *)
Theorem seeding_day_labels env req user w w1 s d :
  analyze_resume env (resume_text req) (target_role req) (known_skills req) w
    = (Return (VDict d), w1) ->
  supabase w = Some s ->
  dict_get d "error" = None ->
  let analysis_id := string_of_N (Store.next_id s) in
  let plans := default (VDict []) (dict_get d "preparation_plans") in
  let label := fun fields : list (string * value) =>
    match dict_get fields "day" with
    | None => "None"
    | Some (VStr day) => day
    | Some day => py_repr day
    end in
  (∀ r w' items n duration tasks i fields,
     analyze env req user w = (Return r, w') ->
     plans = VDict items ->
     items !! n = Some (duration, VList tasks) ->
     tasks !! i = Some (VDict fields) ->
     ∃ row,
       Store.roadmap_progress (store_of w')
         !! (uid user, analysis_id, label fields, duration) = Some row
       ∧ Store.is_completed row = false ∧ Store.skill_score row = 5%Z)
  ∧ (∀ items n duration tasks i j t1 t2,
       plans = VDict items ->
       items !! n = Some (duration, VList tasks) ->
       tasks !! i = Some (VDict t1) -> tasks !! j = Some (VDict t2) -> i ≠ j ->
       dict_get t1 "day" = dict_get t2 "day" ->
       label t1 = label t2
       ∧ (analyze env req user w).1
         = Raise (HTTPException 500 (VStr "Internal processing error."))
       ∧ Store.roadmap_progress (store_of (analyze env req user w).2)
         = Store.roadmap_progress s).
Proof.
  intros Hgen Hs Hclean analysis_id plans label.
  pose proof (analyze_resume_supabase _ _ _ _ _ _ _ Hgen) as Hsup.
  assert (∀ fields duration,
            Store.key (seeded_row analysis_id (uid user) duration fields)
            = (uid user, analysis_id, label fields, duration)) as Hlabel.
  { intros fields duration. unfold seeded_row, label. cbn.
    destruct (dict_get fields "day") as [[]|]; done. }
  split.
  - intros r w' items n duration tasks i fields Hret Hplans Hn Hi.
    apply analyze_Return in Hret as (v & w1' & Hgen' & _ & Hcases).
    rewrite Hgen in Hgen'. injection Hgen' as <- <-.
    rewrite Hsup, Hs in Hcases. rewrite <-Hsup in Hs.
    apply (analyze_persist_Return _ _ _ _ _ _ _ _ Hs) in Hcases
      as (d' & fields' & rows & [= <-] & _ & -> & Hrows & _ & ->).
    cbn in Hrows. rewrite dict_get_set_ne in Hrows by done.
    fold plans analysis_id in Hrows. rewrite Hplans in Hrows.
    pose proof (seed_rows_member _ _ _ _ _ _ _ _ _ Hrows Hn Hi) as Hin.
    pose proof (seed_rows_is_seed _ _ _ _ Hrows) as Hseed.
    rewrite Forall_forall in Hseed.
    destruct (Hseed _ Hin) as (_ & _ & Hf & H5 & _).
    destruct (upsert_rows_lookup_in (now env) rows (Store.roadmap_progress s)
                (uid user, analysis_id, label fields, duration))
      as (p & row & Hp & Hkey & Hl & Hc & Hsc).
    { rewrite <-Hlabel. apply list_elem_of_fmap. by eexists. }
    destruct (Hseed _ Hp) as (_ & _ & Hpf & Hp5 & _).
    exists row. split; [exact Hl|]. split; congruence.
  - intros items n duration tasks i j t1 t2 Hplans Hn Hi Hj Hij Hday.
    split; [unfold label; by rewrite Hday|].
    rewrite (analyze_after_generation _ _ _ _ _ _ Hgen).
    rewrite <-Hsup in Hs.
    unfold analyze_outcome, persist_outcome, store_of. cbn.
    rewrite bool_decide_eq_false_2 by (rewrite Hclean; by intros [? ?]).
    rewrite Hs.
    destruct (analysis_fields_of (uid user) req (VDict d)) as [fields|e];
      [|cbn; by rewrite Hs].
    cbn. rewrite dict_get_set_ne by done. fold plans analysis_id.
    rewrite Hplans.
    destruct (seed_rows analysis_id (uid user) (VDict items)) as [rows|e]
      eqn:Hrows; [|done].
    destruct (seed_rows_shared_key _ _ _ _ _ _ _ _ _ _ _
                Hrows Hn Hi Hj Hij Hday) as (_ & _ & Hdup).
    by rewrite decide_False by done.
Qed.


(** *** The client and the request *)

Lemma append_cons a (s t : string) : String a s +:+ t = String a (s +:+ t).
Proof. done. Qed.

Lemma prefix_append (s t : string) : String.prefix s (s +:+ t) = true.
Proof.
  induction s as [|a s IH]; [by destruct t|].
  rewrite append_cons. cbn. by destruct (ascii_dec a a).
Qed.

Lemma str_contains_prefix (needle haystack : string) :
  String.prefix needle haystack = true -> str_contains needle haystack = true.
Proof. intros Hp. destruct haystack; cbn [str_contains]; by rewrite Hp. Qed.

(** A text contains every piece it was put together from. *)
Lemma str_contains_append (a s b : string) :
  str_contains s (a +:+ s +:+ b) = true.
Proof.
  induction a as [|c a IH].
  - change (str_contains s (s +:+ b) = true).
    apply str_contains_prefix, prefix_append.
  - rewrite append_cons. cbn [str_contains]. rewrite IH. apply orb_true_r.
Qed.

(** X8.  Once [get_client] has returned a client, the client is cached:
    every later call returns the same client and changes nothing, whatever
    the environment then holds; making the client touches neither the
    persistence handle nor the requests sent. *)
Theorem get_client_is_cached env w c w0 :
  get_client env w = (Return c, w0) ->
  _client w0 = Some c
  ∧ supabase w0 = supabase w
  ∧ sent w0 = sent w
  ∧ ∀ env', get_client env' w0 = (Return c, w0).
Proof.
  intros Hc. destruct (get_client_Return _ _ _ _ Hc) as (Hcl & Hs & Hsent).
  repeat split; try done. intros env'. unfold get_client. by rewrite Hcl.
Qed.

(** X9.  With a client, [analyze_resume] never raises and sends one
    request: it returns the parsed value when the provider responds with
    text [json.loads] accepts, and otherwise the error result whose
    [details] is the text of the exception of the call or of the parser. *)
Theorem analyze_resume_returns_with_client env req w c w0 :
  get_client env w = (Return c, w0) ->
  ∃ v,
    analyze_resume env (resume_text req) (target_role req) (known_skills req) w
    = (Return v, log_request (analysis_request req) w0)
    ∧ (∀ text x,
         generate_content env (length (sent w0)) (analysis_request req)
           = Responded text ->
         json_loads env text = inl x -> v = x)
    ∧ (∀ text cls msg,
         generate_content env (length (sent w0)) (analysis_request req)
           = Responded text ->
         json_loads env text = inr (cls, msg) ->
         v = VDict [("error", VStr "AI Analysis Failed");
                    ("details", VStr msg)])
    ∧ (∀ cls msg,
         generate_content env (length (sent w0)) (analysis_request req)
           = Failed cls msg ->
         v = VDict [("error", VStr "AI Analysis Failed");
                    ("details", VStr msg)]).
Proof.
  intros Hc. eexists. split; [exact (analyze_resume_with_client _ _ _ _ _ Hc)|].
  unfold generated. split; [|split].
  - intros text x -> ->. done.
  - intros text cls msg -> ->. done.
  - intros cls msg ->. done.
Qed.

Lemma analyze_outcome_client env req user v w :
  sent (analyze_outcome env req user v w).2 = sent w
  ∧ _client (analyze_outcome env req user v w).2 = _client w.
Proof.
  unfold analyze_outcome, persist_outcome.
  repeat match goal with
         | |- context [match ?x with _ => _ end] => destruct x
         end; done.
Qed.

Lemma analysis_prompt_contains rt tr ks :
  str_contains rt (analysis_prompt rt tr ks) = true
  ∧ str_contains tr (analysis_prompt rt tr ks) = true
  ∧ str_contains (format_optional ks) (analysis_prompt rt tr ks) = true.
Proof.
  unfold analysis_prompt. split; [|split].
  - rewrite <-(append_assoc tr), <-(append_assoc prompt_intro).
    apply str_contains_append.
  - apply str_contains_append.
  - rewrite <-(append_assoc rt), <-(append_assoc prompt_resume),
      <-(append_assoc tr), <-(append_assoc prompt_intro).
    apply str_contains_append.
Qed.

(** X10.  Whatever its outcome, a call of [analyze] that has a client
    sends exactly one request, for the model gemini-2.5-flash in JSON mode,
    whose contents contain the resume text, the target role and the known
    skills ("None" when absent), and keeps the client cached. *)
Theorem analyze_sends_one_request env req user w c w0 :
  get_client env w = (Return c, w0) ->
  let w' := (analyze env req user w).2 in
  let request := analysis_request req in
  sent w' = (sent w ++ [request])%list
  ∧ _client w' = Some c
  ∧ model request = "gemini-2.5-flash"
  ∧ config request = JsonMode
  ∧ str_contains (resume_text req) (contents request) = true
  ∧ str_contains (target_role req) (contents request) = true
  ∧ str_contains (default "None" (known_skills req)) (contents request) = true.
Proof.
  intros Hc. cbv zeta.
  destruct (get_client_Return _ _ _ _ Hc) as (Hcl & _ & Hsent).
  rewrite (analyze_after_generation _ _ _ _ _ _
             (analyze_resume_with_client _ req _ _ _ Hc)).
  destruct (analyze_outcome_client env req user
              (generated env (length (sent w0)) (analysis_request req))
              (log_request (analysis_request req) w0)) as [-> ->].
  cbn [sent _client log_request]. rewrite Hsent.
  split; [done|]. split; [done|]. split; [done|]. split; [done|].
  apply analysis_prompt_contains.
Qed.


(** *** Reads, updates and deletes on a configured store *)

Lemma get_records_Some user w s :
  supabase w = Some s ->
  get_records user w = (Return (Store.select_analyses (uid user) s), w).
Proof.
  intros Hs. unfold get_records. run. rewrite Hs. cbn. rewrite Hs.
  by rewrite (set_supabase_same _ _ Hs).
Qed.

Lemma delete_record_Some i user w s :
  supabase w = Some s ->
  delete_record i user w
  = (Return "success", set_supabase (Store.delete i (uid user) s) w).
Proof. intros Hs. unfold delete_record. run. by rewrite Hs. Qed.

Lemma update_progress_world env data user w s :
  supabase w = Some s ->
  (update_progress env data user w).2
  = set_supabase (updated_store (now env) user data s) w.
Proof. intros Hs. by rewrite (update_progress_Some _ _ _ _ _ Hs). Qed.

Lemma filter_all {A} (P : A -> Prop) `{!∀ x, Decision (P x)} (l : list A) :
  (∀ x, x ∈ l -> P x) -> filter P l = l.
Proof.
  induction l as [|x l IH]; intros Hall; [done|].
  rewrite filter_cons_True by (apply Hall; apply list_elem_of_here).
  f_equal. apply IH. intros y Hy. apply Hall. by apply list_elem_of_further.
Qed.

(** X11.  After [update_progress], [get_progress] for the same analysis
    and caller returns the row of the update under its key, and every other
    row exactly as it returned it before. *)
Theorem update_then_get_progress env data user w s :
  supabase w = Some s ->
  let w' := (update_progress env data user w).2 in
  ∃ rows rows',
    get_progress (analysis_id data) user w = (Return rows, w)
    ∧ get_progress (analysis_id data) user w' = (Return rows', w')
    ∧ ∀ k r, (k, r) ∈ rows'
        <-> (k = update_key user data ∧ r = updated_row (now env) data)
            ∨ (k ≠ update_key user data ∧ (k, r) ∈ rows).
Proof.
  intros Hs. cbv zeta. rewrite (update_progress_world _ _ _ _ _ Hs).
  eexists _, _. split; [by apply get_progress_Some|].
  split; [by apply get_progress_Some|].
  intros k r. unfold Store.select_progress.
  rewrite !list_elem_of_filter, !elem_of_map_to_list. cbn.
  destruct (decide (k = update_key user data)) as [->|Hne].
  - rewrite lookup_insert_eq. cbn. split.
    + intros [_ [= <-]]. by left.
    + intros [[_ ->]|[? _]]; done.
  - rewrite lookup_insert_ne by done. split.
    + intros [? ?]. right. done.
    + intros [[? _]|[_ ?]]; done.
Qed.

(** X12.  [update_progress] changes no row stored under another user id;
    what [get_progress] returns for any other (analysis, caller) pair and
    what [get_records] returns are as before. *)
Theorem update_progress_leaves_others env data user w s :
  supabase w = Some s ->
  let w' := (update_progress env data user w).2 in
  (∀ k, Store.key_user_id k ≠ uid user ->
     Store.roadmap_progress (store_of w') !! k = Store.roadmap_progress s !! k)
  ∧ (∀ a other,
       (a, uid other) ≠ (analysis_id data, uid user) ->
       ∃ rows rows',
         get_progress a other w = (Return rows, w)
         ∧ get_progress a other w' = (Return rows', w')
         ∧ ∀ kr, kr ∈ rows' <-> kr ∈ rows)
  ∧ (∀ other, (get_records other w').1 = (get_records other w).1).
Proof.
  intros Hs. cbv zeta. rewrite (update_progress_world _ _ _ _ _ Hs).
  split; [|split].
  - intros k Hk. cbn. apply lookup_insert_ne. intros <-. by apply Hk.
  - intros a other Hother. eexists _, _. split; [by apply get_progress_Some|].
    split; [by apply get_progress_Some|].
    intros [k r]. unfold Store.select_progress.
    rewrite !list_elem_of_filter, !elem_of_map_to_list. cbn.
    destruct (decide (k = update_key user data)) as [->|Hne].
    + split; intros [[<- Hu] _]; destruct Hother; cbn in Hu; by rewrite Hu.
    + by rewrite lookup_insert_ne.
  - intros other. rewrite (get_records_Some other w s Hs).
    erewrite get_records_Some by done. done.
Qed.

(** X13.  After a call of [analyze] that returns with a persistence
    client, [get_records] of the caller returns the new analysis first,
    under the returned [id], the caller's user id and the requested role,
    followed by the records it returned before; other callers' records
    are as before. *)
Theorem analyze_then_get_records env req user w s r w' :
  supabase w = Some s ->
  analyze env req user w = (Return r, w') ->
  ∃ a rows,
    get_records user w = (Return rows, w)
    ∧ get_records user w' = (Return (a :: rows), w')
    ∧ member r "id" = Some (VStr (Store.id a))
    ∧ Store.user_id (Store.fields a) = uid user
    ∧ Store.target_role (Store.fields a) = target_role req
    ∧ ∀ other, uid other ≠ uid user ->
        (get_records other w').1 = (get_records other w).1.
Proof.
  intros Hs (v & w1 & Hgen & _ & Hcases)%analyze_Return.
  pose proof (analyze_resume_supabase _ _ _ _ _ _ _ Hgen) as Hsup.
  rewrite Hsup, Hs in Hcases. rewrite <-Hsup in Hs.
  apply (analyze_persist_Return _ _ _ _ _ _ _ _ Hs) in Hcases
    as (d & fields & rows & -> & Hf & -> & _ & _ & ->).
  rewrite Hsup in Hs.
  assert (Store.target_role fields = target_role req) as Hrole.
  { clear -Hf. unfold analysis_fields_of, mbind, result_bind in Hf.
    repeat match type of Hf with
           | match ?x with _ => _ end = _ => destruct x; [|done]
           end.
    by injection Hf as <-. }
  apply analysis_fields_of_user in Hf as Hu.
  eexists _, _. split; [by apply get_records_Some|]. split.
  { erewrite get_records_Some by done.
    unfold Store.select_analyses, persisted. cbn [Store.analyses].
    by rewrite filter_cons_True by done. }
  split; [cbn; apply dict_get_set_eq|]. split; [done|]. split; [done|].
  intros other Hother. rewrite (get_records_Some other w s Hs).
  erewrite get_records_Some by done.
  unfold Store.select_analyses, persisted. cbn [Store.analyses fst].
  rewrite filter_cons_False; [done|]. cbn. congruence.
Qed.

(** X14.  [delete_record] answers success whether or not a row matches;
    a second call changes nothing; when no analysis carries both the id and
    the caller's user id the state is unchanged; afterwards [get_records]
    of the caller returns its earlier records without that id, and other
    callers' records are as before. *)
Theorem delete_record_is_idempotent i user w s :
  supabase w = Some s ->
  let w1 := (delete_record i user w).2 in
  delete_record i user w1 = (Return "success", w1)
  ∧ ((∀ a, a ∈ Store.analyses s -> Store.id a = i ->
           Store.user_id (Store.fields a) ≠ uid user) ->
     delete_record i user w = (Return "success", w))
  ∧ (∃ rows,
       get_records user w = (Return rows, w)
       ∧ get_records user w1
         = (Return (filter (fun a => Store.id a ≠ i) rows), w1))
  ∧ (∀ other, uid other ≠ uid user ->
       (get_records other w1).1 = (get_records other w).1).
Proof.
  intros Hs. cbv zeta. rewrite (delete_record_Some _ _ _ _ Hs). cbn [snd].
  split; [|split; [|split]].
  - erewrite delete_record_Some by done. f_equal. unfold set_supabase. cbn.
    f_equal. f_equal. unfold Store.delete. cbn. f_equal.
    apply list_filter_filter_l. done.
  - intros Hnone. f_equal. rewrite <-(set_supabase_same _ _ Hs) at 2.
    f_equal. destruct s as [analyses tbl next]. unfold Store.delete. cbn.
    f_equal. apply filter_all. intros a Ha [Hi Hu]. by eapply Hnone.
  - eexists. split; [by apply get_records_Some|].
    erewrite get_records_Some by done. f_equal. f_equal.
    unfold Store.select_analyses, Store.delete. cbn.
    rewrite !list_filter_filter. apply list_filter_iff. intros a.
    destruct (decide (Store.id a = i)); naive_solver.
  - intros other Hother. rewrite (get_records_Some other w s Hs).
    erewrite get_records_Some by done. cbn. f_equal.
    unfold Store.select_analyses, Store.delete. cbn.
    apply list_filter_filter_l. intros a Ha [_ Hu]. congruence.
Qed.


(** *** Scores *)

Lemma persisted_scores now fields rows s aid u :
  Forall (is_seed aid u) rows ->
  scores_in_range s -> scores_in_range (persisted now fields rows s).
Proof.
  intros Hseed Hrange k row. cbn.
  destruct (decide (k ∈ Store.key <$> rows)) as [Hin|Hout].
  - destruct (upsert_rows_lookup_in now rows (Store.roadmap_progress s) k Hin)
      as (p & row' & Hp & _ & -> & _ & Hscore).
    intros [= <-]. rewrite Forall_forall in Hseed.
    destruct (Hseed p Hp) as (_ & _ & _ & H5 & _). rewrite Hscore, H5. lia.
  - rewrite upsert_rows_lookup_notin by done. apply Hrange.
Qed.

Lemma analyze_outcome_store env req user v w s :
  supabase w = Some s ->
  store_of (analyze_outcome env req user v w).2 = s
  ∨ ∃ fields rows,
      store_of (analyze_outcome env req user v w).2
        = persisted (now env) fields rows s
      ∧ Forall (is_seed (string_of_N (Store.next_id s)) (uid user)) rows.
Proof.
  intros Hs. unfold analyze_outcome, persist_outcome, store_of. rewrite Hs.
  repeat match goal with
         | |- context [match ?x with _ => _ end] =>
             let Hx := fresh "Hx" in destruct x eqn:Hx
         end; cbn; rewrite ?Hs; cbn; auto; right; eexists _, _;
    (split; [reflexivity|]); try constructor.
  unfold mbind, result_bind in *.
  match goal with
  | Hp : match py_get ?r ?k ?d with _ => _ end = Return _ |- _ =>
      destruct (py_get r k d); [|done]
  end.
  by eapply seed_rows_is_seed.
Qed.

(** X15.  When every stored skill score lies in 0..5, it still does
    after [update_progress] with a validated body, after [analyze]
    whatever its outcome, and after [delete_record]. *)
Theorem skill_scores_stay_in_range env w s :
  supabase w = Some s ->
  scores_in_range s ->
  (∀ data user,
     valid_ProgressUpdate data ->
     scores_in_range (store_of (update_progress env data user w).2))
  ∧ (∀ req user, scores_in_range (store_of (analyze env req user w).2))
  ∧ (∀ i user, scores_in_range (store_of (delete_record i user w).2)).
Proof.
  intros Hs Hrange. split; [|split].
  - intros data user Hvalid. rewrite (update_progress_world _ _ _ _ _ Hs).
    intros k row. cbn.
    destruct (decide (k = update_key user data)) as [->|Hne].
    + rewrite lookup_insert_eq. by intros [= <-].
    + rewrite lookup_insert_ne by done. apply Hrange.
  - intros req user.
    destruct (get_client env w) as [[c|e] w0] eqn:Hc.
    2:{ rewrite (analyze_without_client _ _ _ _ _ _ Hc). unfold store_of.
        cbn. by rewrite Hs. }
    rewrite (analyze_after_generation _ _ _ _ _ _
               (analyze_resume_with_client _ req _ _ _ Hc)).
    destruct (get_client_Return _ _ _ _ Hc) as (_ & Hsup & _).
    assert (supabase (log_request (analysis_request req) w0) = Some s) as Hs'
      by (cbn; congruence).
    destruct (analyze_outcome_store env req user
                (generated env (length (sent w0)) (analysis_request req))
                _ s Hs') as [-> | (fields & rows & -> & Hseed)]; [done|].
    by eapply persisted_scores.
  - intros i user. rewrite (delete_record_Some _ _ _ _ Hs). apply Hrange.
Qed.


(** *** The mentor and the interview *)

#[local] Arguments FirstDefinition.system_instruction_of : simpl never.
#[local] Arguments FirstDefinition.input_text_of : simpl never.
#[local] Arguments FirstDefinition.messages_of : simpl never.
#[local] Arguments SecondDefinition.persona_of : simpl never.
#[local] Arguments SecondDefinition.chat_context_of : simpl never.

(** X16.  [explain_task] sends one request when it has a client and none
    when the key is missing; the request is for gemini-2.5-flash without
    configuration and its contents contain the topic and the description. *)
Theorem explain_task_request env req user w :
  (∀ c w0,
     get_client env w = (Return c, w0) ->
     (explain_task env req user w).2 = log_request (explain_request req) w0)
  ∧ (∀ e w0,
       get_client env w = (Raise e, w0) -> (explain_task env req user w).2 = w)
  ∧ model (explain_request req) = "gemini-2.5-flash"
  ∧ config (explain_request req) = NoConfig
  ∧ str_contains (topic req) (contents (explain_request req)) = true
  ∧ str_contains (description req) (contents (explain_request req)) = true.
Proof.
  split; [|split; [|split; [|split; [|split]]]]; try done.
  - intros c w0 Hc. unfold explain_task, models_generate_content. run.
    rewrite Hc. cbn. fold (explain_request req).
    by destruct (generate_content env _ _).
  - intros e w0 Hc. destruct (get_client_Raise _ _ _ _ Hc) as (_ & -> & _).
    unfold explain_task. run. by rewrite Hc.
  - cbn. unfold explain_prompt. apply str_contains_append.
  - cbn. unfold explain_prompt.
    rewrite <-(append_assoc "' "), <-(append_assoc (topic req)),
      <-(append_assoc "You are a Senior Technical Mentor. Explain the topic '").
    apply str_contains_append.
Qed.

(** X17.  The first definition of [mock_interview] answers 500 with the
    text of the exception as detail: the text of the missing-key error, of
    the error raised while the messages are built (no request is then
    sent), or of the provider's failure; otherwise it returns as [question]
    the text of the model's response, null when the response carries no
    text. *)
Theorem first_mock_interview_outcomes env req user w :
  (∀ e w0,
     get_client env w = (Raise e, w0) ->
     FirstDefinition.mock_interview env req user w
     = (Raise (HTTPException 500
                 (VStr "GEMINI_API_KEY not found in environment")), w))
  ∧ (∀ c w0 e,
       get_client env w = (Return c, w0) ->
       FirstDefinition.messages_of (FirstDefinition.system_instruction_of req)
         (FirstDefinition.history req) = Raise e ->
       FirstDefinition.mock_interview env req user w
       = (Raise (HTTPException 500 (VStr (str_exn e))), w0))
  ∧ (∀ c w0 messages cls msg,
       get_client env w = (Return c, w0) ->
       FirstDefinition.messages_of (FirstDefinition.system_instruction_of req)
         (FirstDefinition.history req) = Return messages ->
       generate_content env (length (sent w0)) (first_request req)
         = Failed cls msg ->
       FirstDefinition.mock_interview env req user w
       = (Raise (HTTPException 500 (VStr msg)),
          log_request (first_request req) w0))
  ∧ (∀ c w0 messages t,
       get_client env w = (Return c, w0) ->
       FirstDefinition.messages_of (FirstDefinition.system_instruction_of req)
         (FirstDefinition.history req) = Return messages ->
       generate_content env (length (sent w0)) (first_request req)
         = Responded (Some t) ->
       FirstDefinition.mock_interview env req user w
       = (Return (VDict [("question", VStr t)]),
          log_request (first_request req) w0))
  ∧ (∀ c w0 messages,
       get_client env w = (Return c, w0) ->
       FirstDefinition.messages_of (FirstDefinition.system_instruction_of req)
         (FirstDefinition.history req) = Return messages ->
       generate_content env (length (sent w0)) (first_request req)
         = Responded None ->
       FirstDefinition.mock_interview env req user w
       = (Return (VDict [("question", VNone)]),
          log_request (first_request req) w0)).
Proof.
  unfold FirstDefinition.mock_interview, models_generate_content.
  split; [|split; [|split; [|split]]].
  - intros e w0 Hc. destruct (get_client_Raise _ _ _ _ Hc) as (-> & -> & _).
    run. by rewrite Hc.
  - intros c w0 e Hc Hm. run. rewrite Hc. cbn. by rewrite Hm.
  - intros c w0 messages cls msg Hc Hm Hg. run. rewrite Hc. cbn. rewrite Hm.
    cbn. fold (first_request req). by rewrite Hg.
  - intros c w0 messages t Hc Hm Hg. run. rewrite Hc. cbn. rewrite Hm.
    cbn. fold (first_request req). by rewrite Hg.
  - intros c w0 messages Hc Hm Hg. run. rewrite Hc. cbn. rewrite Hm.
    cbn. fold (first_request req). by rewrite Hg.
Qed.

(** A history entry without a question stops the first definition before
    any request is made. *)
Lemma messages_of_missing_question sys before entry after messages :
  mapM_result FirstDefinition.entry_messages before = Return messages ->
  dict_get entry "q" = None ->
  FirstDefinition.messages_of sys (before ++ VDict entry :: after)
  = Raise (PyError "KeyError" (str_repr "q")).
Proof.
  intros Hb Hq. unfold FirstDefinition.messages_of.
  assert (mapM_result FirstDefinition.entry_messages
            (before ++ VDict entry :: after)
          = Raise (PyError "KeyError" (str_repr "q"))) as ->; [|done].
  revert messages Hb. induction before as [|x before IH]; intros messages Hb.
  - cbn. by rewrite Hq.
  - cbn in Hb |- *. unfold mbind, result_bind in Hb |- *.
    destruct (FirstDefinition.entry_messages x); [|done].
    destruct (mapM_result _ before) eqn:Hrest; [|done].
    by rewrite (IH _ eq_refl).
Qed.

(** X18.  A history entry without [q], after well-formed entries, makes
    the first definition of [mock_interview] answer 500 with detail
    [repr('q')], before any request is sent. *)
Theorem first_mock_interview_missing_question env req user w c w0
    before entry after messages :
  get_client env w = (Return c, w0) ->
  FirstDefinition.history req = (before ++ VDict entry :: after)%list ->
  mapM_result FirstDefinition.entry_messages before = Return messages ->
  dict_get entry "q" = None ->
  FirstDefinition.mock_interview env req user w
  = (Raise (HTTPException 500 (VStr (str_repr "q"))), w0).
Proof.
  intros Hc Hh Hb Hq. unfold FirstDefinition.mock_interview. run.
  rewrite Hc. cbn. rewrite Hh.
  by rewrite (messages_of_missing_question _ _ _ _ _ Hb Hq).
Qed.

(** X20.  The second definition of [mock_interview] answers 500 with the
    fixed detail "Neural link failed." for a missing key, for a history
    entry it cannot format (no request is then sent) and for a failure of
    the provider; otherwise it returns as [question] the text of the
    model's response, null when the response carries no text. *)
Theorem second_mock_interview_outcomes env req user w :
  (∀ e w0,
     get_client env w = (Raise e, w0) ->
     SecondDefinition.mock_interview env req user w
     = (Raise (HTTPException 500 (VStr "Neural link failed.")), w))
  ∧ (∀ c w0 e,
       get_client env w = (Return c, w0) ->
       SecondDefinition.chat_context_of req = Raise e ->
       SecondDefinition.mock_interview env req user w
       = (Raise (HTTPException 500 (VStr "Neural link failed.")), w0))
  ∧ (∀ c w0 chat_context cls msg,
       get_client env w = (Return c, w0) ->
       SecondDefinition.chat_context_of req = Return chat_context ->
       generate_content env (length (sent w0)) (second_request req chat_context)
         = Failed cls msg ->
       SecondDefinition.mock_interview env req user w
       = (Raise (HTTPException 500 (VStr "Neural link failed.")),
          log_request (second_request req chat_context) w0))
  ∧ (∀ c w0 chat_context t,
       get_client env w = (Return c, w0) ->
       SecondDefinition.chat_context_of req = Return chat_context ->
       generate_content env (length (sent w0)) (second_request req chat_context)
         = Responded (Some t) ->
       SecondDefinition.mock_interview env req user w
       = (Return (VDict [("question", VStr t)]),
          log_request (second_request req chat_context) w0))
  ∧ (∀ c w0 chat_context,
       get_client env w = (Return c, w0) ->
       SecondDefinition.chat_context_of req = Return chat_context ->
       generate_content env (length (sent w0)) (second_request req chat_context)
         = Responded None ->
       SecondDefinition.mock_interview env req user w
       = (Return (VDict [("question", VNone)]),
          log_request (second_request req chat_context) w0)).
Proof.
  unfold SecondDefinition.mock_interview, models_generate_content.
  split; [|split; [|split; [|split]]].
  - intros e w0 Hc. destruct (get_client_Raise _ _ _ _ Hc) as (-> & -> & _).
    run. by rewrite Hc.
  - intros c w0 e Hc Hm. run. rewrite Hc. cbn. by rewrite Hm.
  - intros c w0 ctx cls msg Hc Hm Hg. run. rewrite Hc. cbn. rewrite Hm.
    cbn. fold (second_request req ctx). by rewrite Hg.
  - intros c w0 ctx t Hc Hm Hg. run. rewrite Hc. cbn. rewrite Hm.
    cbn. fold (second_request req ctx). by rewrite Hg.
  - intros c w0 ctx Hc Hm Hg. run. rewrite Hc. cbn. rewrite Hm.
    cbn. fold (second_request req ctx). by rewrite Hg.
Qed.

(** *** Authentication and start-up *)

(** X21.  [verify_firebase_token] returns the decoded token when
    verification succeeds, and answers 401 "Invalid Neural Link Token"
    whatever exception verification raises; a handler that depends on it
    runs on the decoded token, and does not run at all on a failure. *)
Theorem verify_firebase_token_outcomes {A}
    (verify_id_token : string -> CallerIdentity + string * string)
    (credentials : string) (handler : CallerIdentity -> M A) (w : World) :
  (∀ decoded_token,
     verify_id_token credentials = inl decoded_token ->
     verify_firebase_token verify_id_token credentials w
       = (Return decoded_token, w)
     ∧ authenticated verify_id_token credentials handler w
       = handler decoded_token w)
  ∧ (∀ cls msg,
       verify_id_token credentials = inr (cls, msg) ->
       verify_firebase_token verify_id_token credentials w
         = (Raise (HTTPException 401 (VStr "Invalid Neural Link Token")), w)
       ∧ authenticated verify_id_token credentials handler w
         = (Raise (HTTPException 401 (VStr "Invalid Neural Link Token")), w)).
Proof.
  unfold authenticated, verify_firebase_token. split.
  - intros decoded Hv. run. rewrite Hv. cbn. split; [done|].
    by destruct (handler decoded w) as [[?|?] ?].
  - intros cls msg Hv. run. by rewrite Hv.
Qed.

(** X22.  Start-up sets the persistence handle exactly when
    SUPABASE_URL and SUPABASE_KEY are both set and non-empty, to the client
    made from them; otherwise [update_progress] answers 500 "Supabase
    offline" and the read handlers return empty sequences. *)
Theorem lifespan_startup_configures url key acreate_client env data user :
  let w := lifespan_startup url key acreate_client fresh in
  (is_Some (supabase w) <->
   ∃ u k, url = Some u ∧ key = Some k ∧ u ≠ EmptyString ∧ k ≠ EmptyString)
  ∧ (∀ u k, url = Some u -> key = Some k -> u ≠ EmptyString ->
       k ≠ EmptyString -> supabase w = Some (acreate_client u k))
  ∧ (supabase w = None ->
     update_progress env data user w
       = (Raise (HTTPException 500 (VStr "Supabase offline")), w)
     ∧ get_progress (analysis_id data) user w = (Return [], w)
     ∧ get_records user w = (Return [], w)).
Proof.
  cbv zeta. split; [|split].
  - unfold lifespan_startup. destruct url as [[|a u]|], key as [[|b k]|]; cbn;
      split; try (by intros [? ?]); try (intros (? & ? & ? & ? & ? & ?); congruence).
    intros _. eexists _, _. done.
  - intros u k -> -> Hu Hk. unfold lifespan_startup.
    by destruct u, k.
  - intros Hoff. unfold update_progress, get_progress, get_records. run.
    by rewrite Hoff.
Qed.

End FurtherProperties.

(** ** The properties on concrete requests *)

#[local] Existing Instance plain_runtime.

Lemma analyze_returns_generated_object_witness :
  ∃ v w1,
    analyze_resume three_task_env (resume_text resume_request)
      (target_role resume_request) (known_skills resume_request) online
      = (Return v, w1)
    ∧ (supabase online = None -> three_task_response = v)
    ∧ (∀ s, supabase online = Some s ->
         member three_task_response "id"
         = Some (VStr (string_of_N (Store.next_id s))))
    ∧ (∀ k, k ≠ "id" -> member three_task_response k = member v k)
    ∧ (has_schema three_task_response <-> has_schema v).
Proof.
  apply (analyze_returns_generated_object three_task_env resume_request alice
           online three_task_response
           (analyze three_task_env resume_request alice online).2).
  - vm_compute. lia.
  - vm_compute. reflexivity.
Defined.

Lemma analyze_partial_structure_counterexample :
  valid_AnalyzeRequest resume_request
  ∧ analyze_resume partial_env (resume_text resume_request)
      (target_role resume_request) (known_skills resume_request) online
    = (Return partial_result,
       (analyze_resume partial_env (resume_text resume_request)
          (target_role resume_request) (known_skills resume_request) online).2)
  ∧ (analyze partial_env resume_request alice online).1 = Return partial_response
  ∧ ¬ has_schema partial_response.
Proof.
  split; [vm_compute; lia|]. split; [vm_compute; reflexivity|].
  split; [vm_compute; reflexivity|].
  intros [Hkeys _]. destruct (Hkeys "skills") as [x Hx].
  - unfold schema_keys. rewrite !elem_of_cons. auto.
  - vm_compute in Hx. discriminate.
Qed.

Lemma analyze_error_result_status_witness :
  str_contains "429" "429 RESOURCE_EXHAUSTED" = true
  ∧ analyze rate_limited_env resume_request alice online
    = (Raise (HTTPException 503 (VStr "429 RESOURCE_EXHAUSTED")),
       (analyze_resume rate_limited_env (resume_text resume_request)
          (target_role resume_request) (known_skills resume_request) online).2).
Proof.
  split; [reflexivity|].
  apply analyze_error_result_status. vm_compute. reflexivity.
Defined.

Lemma analyze_without_persistence_counterexample :
  supabase offline = None
  ∧ (analyze partial_env resume_request alice offline).1 = Return partial_result
  ∧ http_status (analyze partial_env resume_request alice offline).1
    ≠ Some 500%Z
  ∧ http_status (delete_record "1" alice offline).1 = None.
Proof.
  split; [reflexivity|]. split; [vm_compute; reflexivity|].
  split; [vm_compute; discriminate|]. reflexivity.
Qed.

Lemma mock_interview_sends_latest_answer_only_witness :
  (sent (route_mock_interview interviewer_env second_turn alice offline).2
   = (sent (set_client example_client offline) ++ [first_request second_turn])%list
   ∧ contents (first_request second_turn)
     = match FirstDefinition.last_answer second_turn with
       | EmptyString => "Let's start the interview."
       | answer => answer
       end)
  ∧ contents (first_request second_turn) = "A rolling restart keeps capacity."
  ∧ str_contains "How do you deploy without downtime?"
      (contents (first_request second_turn)) = false
  ∧ str_contains "With blue-green environments."
      (contents (first_request second_turn)) = false.
Proof.
  split.
  - apply (mock_interview_sends_latest_answer_only interviewer_env second_turn
             alice offline example_client (set_client example_client offline)
             second_turn_messages).
    + reflexivity.
    + vm_compute. reflexivity.
  - split; [reflexivity|]. split; vm_compute; reflexivity.
Defined.

Lemma persistence_absent_witness :
  get_progress "1" alice offline = (Return [], offline)
  ∧ get_records alice offline = (Return [], offline)
  ∧ update_progress three_task_env day1_done alice offline
    = (Raise (HTTPException 500 (VStr "Supabase offline")), offline)
  ∧ analyze partial_env resume_request alice offline
    = (Return partial_result,
       (analyze_resume partial_env (resume_text resume_request)
          (target_role resume_request) (known_skills resume_request) offline).2).
Proof.
  destruct (persistence_absent partial_env offline eq_refl)
    as (Hprogress & Hrecords & _ & Hanalyze).
  destruct (persistence_absent three_task_env offline eq_refl)
    as (_ & _ & Hupdate & _).
  split; [apply Hprogress|]. split; [apply Hrecords|]. split; [apply Hupdate|].
  apply Hanalyze; vm_compute; reflexivity.
Defined.

Lemma update_progress_last_write_wins_witness :
  let w1 := (update_progress at_noon day1_done alice online).2 in
  let w2 := (update_progress at_one day1_reopened alice w1).2 in
  ∃ s2,
    supabase w2 = Some s2
    ∧ rows_at (update_key alice day1_reopened) (Store.roadmap_progress s2)
      = [(update_key alice day1_reopened, updated_row (now at_one) day1_reopened)]
    ∧ (∀ k, k ≠ update_key alice day1_reopened ->
         Store.roadmap_progress s2 !! k = Store.roadmap_progress Store.empty !! k)
    ∧ Store.analyses s2 = Store.analyses Store.empty
    ∧ w2 = (update_progress at_one day1_reopened alice online).2
    ∧ (day1_done = day1_reopened -> now at_noon = now at_one -> w2 = w1).
Proof.
  apply (update_progress_last_write_wins at_noon at_one day1_done day1_reopened
           alice online Store.empty); reflexivity.
Defined.

Lemma update_progress_repeat_counterexample :
  let w1 := (update_progress at_noon day1_done alice online).2 in
  let w2 := (update_progress at_one day1_done alice w1).2 in
  updated_at_of alice day1_done w1 = Some 12%N
  ∧ updated_at_of alice day1_done w2 = Some 13%N
  ∧ w2 ≠ w1.
Proof.
  cbv zeta. split; [vm_compute; reflexivity|]. split; [vm_compute; reflexivity|].
  intros Heq. apply (f_equal (updated_at_of alice day1_done)) in Heq.
  vm_compute in Heq. discriminate.
Qed.

Lemma reads_and_deletes_are_scoped_witness :
  (∀ a, ∃ rows,
      get_progress a bob seeded = (Return rows, seeded)
      ∧ ∀ k r, (k, r) ∈ rows <->
          Store.roadmap_progress seeded_store !! k = Some r
          ∧ Store.key_analysis_id k = a ∧ Store.key_user_id k = uid bob)
  ∧ (∃ rows,
      get_records bob seeded = (Return rows, seeded)
      ∧ ∀ r, r ∈ rows <->
          r ∈ Store.analyses seeded_store
          ∧ Store.user_id (Store.fields r) = uid bob)
  ∧ (∀ i, ∃ s',
      delete_record i bob seeded = (Return "success", set_supabase s' seeded)
      ∧ Store.roadmap_progress s' = Store.roadmap_progress seeded_store
      ∧ ∀ r, r ∈ Store.analyses s' <->
          r ∈ Store.analyses seeded_store
          ∧ ¬ (Store.id r = i ∧ Store.user_id (Store.fields r) = uid bob)).
Proof.
  apply (reads_and_deletes_are_scoped seeded seeded_store bob).
  vm_compute. reflexivity.
Defined.


Lemma progress_writes_carry_caller_witness :
  (∀ req r w',
     analyze three_task_env req alice online = (Return r, w') ->
     ∃ s' a,
       supabase w' = Some s'
       ∧ Store.analyses s' = a :: Store.analyses Store.empty
       ∧ Store.user_id (Store.fields a) = uid alice
       ∧ ∀ k, Store.roadmap_progress s' !! k
              ≠ Store.roadmap_progress Store.empty !! k ->
           references_analysis s' k
           ∧ Store.key_analysis_id k = Store.id a
           ∧ Store.key_user_id k = uid alice)
  ∧ (∀ data, ∃ res s',
       update_progress three_task_env data alice online
       = (Return res, set_supabase s' online)
       ∧ Store.analyses s' = Store.analyses Store.empty
       ∧ Store.roadmap_progress s' !! update_key alice data
         = Some (updated_row (now three_task_env) data)
       ∧ ∀ k, Store.roadmap_progress s' !! k
              ≠ Store.roadmap_progress Store.empty !! k ->
           k = (uid alice, analysis_id data, day_label data, duration_type data)).
Proof.
  apply (progress_writes_carry_caller three_task_env alice online Store.empty).
  reflexivity.
Defined.

Lemma stray_update_counterexample :
  let w' := (update_progress three_task_env stray_update alice online).2 in
  referential_integrity (store_of online)
  ∧ http_status (update_progress three_task_env stray_update alice online).1
    = Some 200%Z
  ∧ Store.roadmap_progress (store_of w') !! update_key alice stray_update
    = Some (updated_row 10 stray_update)
  ∧ Store.analyses (store_of w') = []
  ∧ ¬ referential_integrity (store_of w').
Proof.
  cbv zeta. split.
  { intros k row Hl. vm_compute in Hl. discriminate. }
  split; [vm_compute; reflexivity|].
  assert (Store.roadmap_progress
            (store_of (update_progress three_task_env stray_update alice online).2)
          !! update_key alice stray_update
          = Some (updated_row 10 stray_update)) as Hrow
    by (vm_compute; reflexivity).
  split; [exact Hrow|]. split; [vm_compute; reflexivity|].
  intros Hri. destruct (Hri _ _ Hrow) as (a & Ha & _).
  vm_compute in Ha. by apply elem_of_nil in Ha.
Qed.

Lemma explain_task_never_fails_witness :
  (explain_task mentor_env mentor_request alice offline).1
    = Return (VDict [("explanation", VStr "Keep a pool of open connections.")])
  ∧ (explain_task overloaded_env mentor_request alice offline).1
    = Return (VDict
        [("explanation",
          VStr "Neural Link offline. The AI Mentor is currently recalibrating.")])
  ∧ (explain_task without_key mentor_request alice offline).1
    = Return (VDict
        [("explanation",
          VStr "Neural Link offline. The AI Mentor is currently recalibrating.")]).
Proof.
  split; [|split].
  - destruct (explain_task_never_fails mentor_env mentor_request alice offline)
      as (_ & _ & Htext & _).
    apply (Htext example_client (set_client example_client offline));
      reflexivity.
  - destruct (explain_task_never_fails overloaded_env mentor_request alice
                offline) as (_ & _ & _ & _ & Hfail & _).
    apply (Hfail example_client (set_client example_client offline)
             "ServerError" "503 UNAVAILABLE"); reflexivity.
  - destruct (explain_task_never_fails without_key mentor_request alice offline)
      as (_ & _ & _ & _ & _ & Hkey).
    apply (Hkey (PyError "RuntimeError" "GEMINI_API_KEY not found in environment")
             offline). reflexivity.
Defined.

Lemma seeding_day_labels_witness :
  (∃ row,
     Store.roadmap_progress seeded_store !! ("alice", "1", "Day 2", "30")
       = Some row
     ∧ Store.is_completed row = false ∧ Store.skill_score row = 5%Z)
  ∧ (analyze repeated_day_env resume_request alice online).1
    = Raise (HTTPException 500 (VStr "Internal processing error."))
  ∧ Store.roadmap_progress
      (store_of (analyze repeated_day_env resume_request alice online).2)
    = Store.roadmap_progress Store.empty.
Proof.
  split.
  - destruct (seeding_day_labels three_task_env resume_request alice online
                (analyze_resume three_task_env (resume_text resume_request)
                   (target_role resume_request) (known_skills resume_request)
                   online).2
                Store.empty
                [("readiness_score", VInt 62);
                 ("preparation_plans", three_task_plans)])
      as (Hlabels & _); [vm_compute; reflexivity|reflexivity|reflexivity|].
    apply (Hlabels three_task_response seeded
             [("30", VList [VDict [("day", VStr "Day 1")];
                            VDict [("day", VStr "Day 2")]]);
              ("60", VList [VDict [("day", VStr "Day 1")]]);
              ("90", VList [])]
             0 "30" [VDict [("day", VStr "Day 1")]; VDict [("day", VStr "Day 2")]]
             1 [("day", VStr "Day 2")]);
      vm_compute; reflexivity.
  - destruct (seeding_day_labels repeated_day_env resume_request alice online
                (analyze_resume repeated_day_env (resume_text resume_request)
                   (target_role resume_request) (known_skills resume_request)
                   online).2
                Store.empty [("preparation_plans", repeated_day_plans)])
      as (_ & Hshared); [vm_compute; reflexivity|reflexivity|reflexivity|].
    apply (Hshared [("30", VList repeated_day_tasks)] 0 "30" repeated_day_tasks
             0 1 [("day", VStr "Day 1")] [("day", VStr "Day 1")]);
      try reflexivity.
    lia.
Defined.

Lemma seeding_refused_batch_counterexample :
  let outcome := analyze repeated_day_env resume_request alice online in
  task_count repeated_day_plans = Return 3
  ∧ seed_rows "1" "alice" repeated_day_plans = Return repeated_day_rows
  ∧ Store.key <$> repeated_day_rows
    = [("alice", "1", "Day 1", "30"); ("alice", "1", "Day 1", "30");
       ("alice", "1", "None", "30")]
  ∧ outcome.1 = Raise (HTTPException 500 (VStr "Internal processing error."))
  ∧ Store.id <$> Store.analyses (store_of outcome.2) = ["1"]
  ∧ rows_at ("alice", "1", "Day 1", "30")
      (Store.roadmap_progress (store_of outcome.2)) = []
  ∧ progress_count "1" alice outcome.2 = Return 0.
Proof.
  cbv zeta. repeat split; vm_compute; reflexivity.
Qed.

(** ** The further properties on concrete requests *)

Lemma analyze_answers_429_iff_witness :
  analyze throttled_env resume_request alice online
  = (Raise (HTTPException 429 (VStr "retry later")),
     log_request (analysis_request resume_request)
       (set_client example_client online))
  ∧ analyze unexplained_env resume_request alice online
    = (Raise (HTTPException 429 (VStr "Too Many Requests")),
       log_request (analysis_request resume_request)
         (set_client example_client online)).
Proof.
  split.
  - apply (proj2 (analyze_answers_429_iff throttled_env resume_request alice
                    online (VStr "retry later") _)).
    exists example_client, (set_client example_client online),
      (Some throttled_text), throttled_fields, (VStr "429 quota exceeded"),
      (VStr "retry later").
    repeat split; vm_compute; reflexivity.
  - apply (proj2 (analyze_answers_429_iff unexplained_env resume_request alice
                    online (VStr "Too Many Requests") _)).
    exists example_client, (set_client example_client online),
      (Some unexplained_text), unexplained_fields, (VStr "429 quota exceeded"),
      VNone.
    repeat split; vm_compute; reflexivity.
Defined.

Lemma analyze_without_api_key_witness :
  analyze without_key resume_request alice online
  = (Raise (HTTPException 500 (VStr "Internal processing error.")), online).
Proof.
  apply analyze_without_api_key; [reflexivity|left; reflexivity].
Defined.

Lemma analyze_rejects_malformed_generation_witness :
  analyze number_env resume_request alice online
  = (Raise (HTTPException 500 (VStr "Internal processing error.")),
     log_request (analysis_request resume_request)
       (set_client example_client online)).
Proof.
  apply (analyze_rejects_malformed_generation number_env resume_request alice
           online (VInt 42)).
  - vm_compute. reflexivity.
  - exact I.
Defined.

Lemma analyze_seeding_failure_keeps_analysis_witness :
  ∃ s',
    analyze unseedable_env resume_request alice online
    = (Raise (HTTPException 500 (VStr "Internal processing error.")),
       set_supabase s'
         (log_request (analysis_request resume_request)
            (set_client example_client online)))
    ∧ Store.analyses s'
      = {| Store.id := string_of_N (Store.next_id Store.empty);
           Store.fields := unseedable_row |} :: Store.analyses Store.empty
    ∧ Store.roadmap_progress s' = Store.roadmap_progress Store.empty.
Proof.
  apply (analyze_seeding_failure_keeps_analysis unseedable_env resume_request
           alice online _ Store.empty unseedable_fields unseedable_row
           (interp_error "AttributeError" "items" (VList [])));
    vm_compute; reflexivity.
Defined.

Lemma analyze_unbuildable_row_persists_nothing_witness :
  analyze null_score_env resume_request alice online
  = (Raise (HTTPException 500 (VStr "Internal processing error.")),
     log_request (analysis_request resume_request)
       (set_client example_client online))
  ∧ supabase (log_request (analysis_request resume_request)
                (set_client example_client online))
    = supabase online.
Proof.
  apply (analyze_unbuildable_row_persists_nothing null_score_env resume_request
           alice online _ null_score_result
           (interp_error "TypeError" "int" VNone)).
  - vm_compute. reflexivity.
  - reflexivity.
  - exists Store.empty. reflexivity.
  - vm_compute. reflexivity.
Defined.

Lemma analyze_tolerates_missing_keys_witness :
  ∃ s',
    analyze skills_only_env resume_request alice online
    = (Return (VDict (dict_set skills_only_fields "id"
                        (VStr (string_of_N (Store.next_id Store.empty))))),
       set_supabase s'
         (log_request (analysis_request resume_request)
            (set_client example_client online)))
    ∧ Store.roadmap_progress s' = Store.roadmap_progress Store.empty
    ∧ Store.analyses s'
      = {| Store.id := string_of_N (Store.next_id Store.empty);
           Store.fields :=
             {| Store.user_id := uid alice;
                Store.target_role := target_role resume_request;
                Store.eligible_roles :=
                  default (VList []) (dict_get skills_only_fields "eligible_roles");
                Store.readiness_score := 0;
                Store.skills :=
                  default (VList []) (dict_get skills_only_fields "skills");
                Store.required_skills :=
                  default (VList [])
                    (dict_get skills_only_fields "required_skills");
                Store.missing_skills :=
                  default (VList [])
                    (dict_get skills_only_fields "missing_skills");
                Store.salary_tiers :=
                  default (VDict []) (dict_get skills_only_fields "salary_tiers");
                Store.preparation_plans := VDict [] |} |}
          :: Store.analyses Store.empty.
Proof.
  apply (analyze_tolerates_missing_keys skills_only_env resume_request alice
           online _ Store.empty skills_only_fields);
    vm_compute; reflexivity.
Defined.

Lemma get_client_is_cached_witness :
  _client (set_client example_client offline) = Some example_client
  ∧ supabase (set_client example_client offline) = supabase offline
  ∧ sent (set_client example_client offline) = sent offline
  ∧ ∀ env', get_client env' (set_client example_client offline)
            = (Return example_client, set_client example_client offline).
Proof.
  apply (get_client_is_cached three_task_env offline). reflexivity.
Defined.

Lemma analyze_resume_returns_with_client_witness :
  ∃ v,
    analyze_resume rate_limited_env (resume_text resume_request)
      (target_role resume_request) (known_skills resume_request) offline
    = (Return v,
       log_request (analysis_request resume_request)
         (set_client example_client offline))
    ∧ (∀ text x,
         generate_content rate_limited_env
           (length (sent (set_client example_client offline)))
           (analysis_request resume_request) = Responded text ->
         json_loads rate_limited_env text = inl x -> v = x)
    ∧ (∀ text cls msg,
         generate_content rate_limited_env
           (length (sent (set_client example_client offline)))
           (analysis_request resume_request) = Responded text ->
         json_loads rate_limited_env text = inr (cls, msg) ->
         v = VDict [("error", VStr "AI Analysis Failed");
                    ("details", VStr msg)])
    ∧ (∀ cls msg,
         generate_content rate_limited_env
           (length (sent (set_client example_client offline)))
           (analysis_request resume_request) = Failed cls msg ->
         v = VDict [("error", VStr "AI Analysis Failed");
                    ("details", VStr msg)]).
Proof.
  apply (analyze_resume_returns_with_client rate_limited_env resume_request
           offline example_client). reflexivity.
Defined.

Lemma analyze_sends_one_request_witness :
  let w' := (analyze three_task_env resume_request alice online).2 in
  let request := analysis_request resume_request in
  sent w' = (sent online ++ [request])%list
  ∧ _client w' = Some example_client
  ∧ model request = "gemini-2.5-flash"
  ∧ config request = JsonMode
  ∧ str_contains (resume_text resume_request) (contents request) = true
  ∧ str_contains (target_role resume_request) (contents request) = true
  ∧ str_contains (default "None" (known_skills resume_request))
      (contents request) = true.
Proof.
  apply (analyze_sends_one_request three_task_env resume_request alice online
           example_client (set_client example_client online)).
  reflexivity.
Defined.

Lemma update_then_get_progress_witness :
  let w' := (update_progress at_noon day1_done alice seeded).2 in
  ∃ rows rows',
    get_progress (analysis_id day1_done) alice seeded = (Return rows, seeded)
    ∧ get_progress (analysis_id day1_done) alice w' = (Return rows', w')
    ∧ ∀ k r, (k, r) ∈ rows'
        <-> (k = update_key alice day1_done
             ∧ r = updated_row (now at_noon) day1_done)
            ∨ (k ≠ update_key alice day1_done ∧ (k, r) ∈ rows).
Proof.
  apply (update_then_get_progress at_noon day1_done alice seeded seeded_store).
  vm_compute. reflexivity.
Defined.

Lemma update_progress_leaves_others_witness :
  let w' := (update_progress at_noon day1_done bob seeded).2 in
  (∀ k, Store.key_user_id k ≠ uid bob ->
     Store.roadmap_progress (store_of w') !! k
     = Store.roadmap_progress seeded_store !! k)
  ∧ (∀ a other,
       (a, uid other) ≠ (analysis_id day1_done, uid bob) ->
       ∃ rows rows',
         get_progress a other seeded = (Return rows, seeded)
         ∧ get_progress a other w' = (Return rows', w')
         ∧ ∀ kr, kr ∈ rows' <-> kr ∈ rows)
  ∧ (∀ other, (get_records other w').1 = (get_records other seeded).1).
Proof.
  apply (update_progress_leaves_others at_noon day1_done bob seeded
           seeded_store).
  vm_compute. reflexivity.
Defined.

Lemma analyze_then_get_records_witness :
  ∃ a rows,
    get_records alice online = (Return rows, online)
    ∧ get_records alice seeded = (Return (a :: rows), seeded)
    ∧ member three_task_response "id" = Some (VStr (Store.id a))
    ∧ Store.user_id (Store.fields a) = uid alice
    ∧ Store.target_role (Store.fields a) = target_role resume_request
    ∧ ∀ other, uid other ≠ uid alice ->
        (get_records other seeded).1 = (get_records other online).1.
Proof.
  apply (analyze_then_get_records three_task_env resume_request alice online
           Store.empty three_task_response seeded).
  - reflexivity.
  - vm_compute. reflexivity.
Defined.

Lemma delete_record_is_idempotent_witness :
  let w1 := (delete_record "1" alice seeded).2 in
  delete_record "1" alice w1 = (Return "success", w1)
  ∧ ((∀ a, a ∈ Store.analyses seeded_store -> Store.id a = "1" ->
           Store.user_id (Store.fields a) ≠ uid alice) ->
     delete_record "1" alice seeded = (Return "success", seeded))
  ∧ (∃ rows,
       get_records alice seeded = (Return rows, seeded)
       ∧ get_records alice w1
         = (Return (filter (fun a => Store.id a ≠ "1") rows), w1))
  ∧ (∀ other, uid other ≠ uid alice ->
       (get_records other w1).1 = (get_records other seeded).1).
Proof.
  apply (delete_record_is_idempotent "1" alice seeded seeded_store).
  vm_compute. reflexivity.
Defined.

Lemma skill_scores_stay_in_range_witness :
  (∀ data user,
     valid_ProgressUpdate data ->
     scores_in_range (store_of (update_progress three_task_env data user online).2))
  ∧ (∀ req user,
       scores_in_range (store_of (analyze three_task_env req user online).2))
  ∧ (∀ i user, scores_in_range (store_of (delete_record i user online).2)).
Proof.
  apply (skill_scores_stay_in_range three_task_env online Store.empty).
  - reflexivity.
  - intros k row Hrow. vm_compute in Hrow. discriminate Hrow.
Defined.

Lemma explain_task_request_witness :
  (explain_task mentor_env mentor_request alice offline).2
    = log_request (explain_request mentor_request)
        (set_client example_client offline)
  ∧ (explain_task without_key mentor_request alice offline).2 = offline.
Proof.
  destruct (explain_task_request mentor_env mentor_request alice offline)
    as (Hsent & _).
  destruct (explain_task_request without_key mentor_request alice offline)
    as (_ & Hnone & _).
  split.
  - apply (Hsent example_client). reflexivity.
  - apply (Hnone missing_key_error offline). reflexivity.
Defined.

Lemma first_mock_interview_outcomes_witness :
  FirstDefinition.mock_interview without_key second_turn alice offline
    = (Raise (HTTPException 500
                (VStr "GEMINI_API_KEY not found in environment")), offline)
  ∧ FirstDefinition.mock_interview overloaded_env second_turn alice offline
    = (Raise (HTTPException 500 (VStr "503 UNAVAILABLE")),
       log_request (first_request second_turn)
         (set_client example_client offline))
  ∧ FirstDefinition.mock_interview interviewer_env second_turn alice offline
    = (Return (VDict [("question", VStr "What is an error budget?")]),
       log_request (first_request second_turn)
         (set_client example_client offline)).
Proof.
  split; [|split].
  - destruct (first_mock_interview_outcomes without_key second_turn alice
                offline) as (Hkey & _).
    apply (Hkey missing_key_error offline). reflexivity.
  - destruct (first_mock_interview_outcomes overloaded_env second_turn alice
                offline) as (_ & _ & Hfail & _).
    apply (Hfail example_client _ second_turn_messages "ServerError");
      vm_compute; reflexivity.
  - destruct (first_mock_interview_outcomes interviewer_env second_turn alice
                offline) as (_ & _ & _ & Htext & _).
    apply (Htext example_client _ second_turn_messages);
      vm_compute; reflexivity.
Defined.

Lemma first_mock_interview_missing_question_witness :
  FirstDefinition.mock_interview interviewer_env turn_without_question alice
    offline
  = (Raise (HTTPException 500 (VStr (str_repr "q"))),
     set_client example_client offline).
Proof.
  apply (first_mock_interview_missing_question interviewer_env
           turn_without_question alice offline example_client _
           [] [("a", VStr "With blue-green environments.")] [] []);
    reflexivity.
Defined.

Lemma second_definition_linearizes_history_witness :
  sent (SecondDefinition.mock_interview interviewer_env third_turn alice
          offline).2
  = (sent (set_client example_client offline)
     ++ [ {| model := MODEL;
             contents :=
               ("Target Role: " +:+ SecondDefinition.target_role third_turn
                +:+ LF +:+ foldr String.append EmptyString third_turn_lines)
               +:+ "Candidate's latest response: "
               +:+ SecondDefinition.last_answer third_turn;
             config :=
               SystemInstruction (SecondDefinition.persona_of third_turn) |} ])%list.
Proof.
  apply (second_definition_linearizes_history interviewer_env third_turn alice
           offline example_client).
  - reflexivity.
  - vm_compute. reflexivity.
Defined.

Lemma second_mock_interview_outcomes_witness :
  SecondDefinition.mock_interview without_key third_turn alice offline
    = (Raise (HTTPException 500 (VStr "Neural link failed.")), offline)
  ∧ SecondDefinition.mock_interview overloaded_env third_turn alice offline
    = (Raise (HTTPException 500 (VStr "Neural link failed.")),
       log_request (second_request third_turn third_turn_context)
         (set_client example_client offline))
  ∧ SecondDefinition.mock_interview interviewer_env third_turn alice offline
    = (Return (VDict [("question", VStr "What is an error budget?")]),
       log_request (second_request third_turn third_turn_context)
         (set_client example_client offline)).
Proof.
  split; [|split].
  - destruct (second_mock_interview_outcomes without_key third_turn alice
                offline) as (Hkey & _).
    apply (Hkey missing_key_error offline). reflexivity.
  - destruct (second_mock_interview_outcomes overloaded_env third_turn alice
                offline) as (_ & _ & Hfail & _).
    apply (Hfail example_client _ third_turn_context "ServerError"
             "503 UNAVAILABLE"); vm_compute; reflexivity.
  - destruct (second_mock_interview_outcomes interviewer_env third_turn alice
                offline) as (_ & _ & _ & Htext & _).
    apply (Htext example_client _ third_turn_context);
      vm_compute; reflexivity.
Defined.

Lemma verify_firebase_token_outcomes_witness :
  (verify_firebase_token verify_id_token_of_examples "token-of-alice" online
     = (Return alice, online)
   ∧ authenticated verify_id_token_of_examples "token-of-alice"
       (update_progress at_noon day1_done) online
     = update_progress at_noon day1_done alice online)
  ∧ (verify_firebase_token verify_id_token_of_examples "stale-token" online
       = (Raise (HTTPException 401 (VStr "Invalid Neural Link Token")), online)
     ∧ authenticated verify_id_token_of_examples "stale-token"
         (update_progress at_noon day1_done) online
       = (Raise (HTTPException 401 (VStr "Invalid Neural Link Token")), online)).
Proof.
  destruct (verify_firebase_token_outcomes verify_id_token_of_examples
              "token-of-alice" (update_progress at_noon day1_done) online)
    as (Hok & _).
  destruct (verify_firebase_token_outcomes verify_id_token_of_examples
              "stale-token" (update_progress at_noon day1_done) online)
    as (_ & Hbad).
  split.
  - apply Hok. reflexivity.
  - apply (Hbad "InvalidIdTokenError" "Token expired, 1762200000 < 1762203600").
    reflexivity.
Defined.

Lemma lifespan_startup_configures_witness :
  supabase (lifespan_startup (Some "https://project.supabase.co")
              (Some "service-key") connect_to_empty fresh)
    = Some Store.empty
  ∧ (update_progress at_noon day1_done alice
       (lifespan_startup (Some "https://project.supabase.co") None
          connect_to_empty fresh)
     = (Raise (HTTPException 500 (VStr "Supabase offline")),
        lifespan_startup (Some "https://project.supabase.co") None
          connect_to_empty fresh)
     ∧ get_progress (analysis_id day1_done) alice
         (lifespan_startup (Some "https://project.supabase.co") None
            connect_to_empty fresh)
       = (Return [],
          lifespan_startup (Some "https://project.supabase.co") None
            connect_to_empty fresh)
     ∧ get_records alice
         (lifespan_startup (Some "https://project.supabase.co") None
            connect_to_empty fresh)
       = (Return [],
          lifespan_startup (Some "https://project.supabase.co") None
            connect_to_empty fresh)).
Proof.
  destruct (lifespan_startup_configures (Some "https://project.supabase.co")
              (Some "service-key") connect_to_empty at_noon day1_done alice)
    as (_ & Hset & _).
  destruct (lifespan_startup_configures (Some "https://project.supabase.co")
              None connect_to_empty at_noon day1_done alice)
    as (_ & _ & Hoff).
  split.
  - apply (Hset "https://project.supabase.co" "service-key");
      reflexivity || discriminate.
  - apply Hoff. reflexivity.
Defined.
